(** * UCVM: the one-dimensional velocity model, the installer's size
    formatter and the acceptance-test harness

    A shallow embedding of

    - [ucvm/models/velocity/onedimensional/onedimensional.py]
      (module [OneDimensional]),
    - [sizeof_fmt] of [setup.py] (module [Setup]),
    - [run_acceptance_test] of [ucvm/src/shared/test.py] (module [SharedTest]).

    Conventions of the embedding.

    - A Python [float] (and an [int] where the code mixes the two) is an
      exact rational, [Q]: rounding, overflow, infinities and NaN are
      outside the model.  Numeric [==] is [Qeq], so two results are
      compared with [==] on their numbers and with [=] on everything else.
      The one exception is [math.log] in [sizeof_fmt]: the integer part
      of its floating-point result is a parameter of the model, since it
      need not be that of the exact logarithm.
    - [None] is [None] of an [option].
    - A call that can raise returns a [PyResult]; a call that mutates its
      argument returns the new value of the argument next to its result.
    - A [str] is a [string] of bytes; only ASCII white space and line
      boundaries are modelled. *)

From Stdlib Require Import ZArith QArith Qround Qabs Bool List String Ascii.
From Stdlib Require Import Lia Lqa DecimalString Sorted Qminmax.
Import ListNotations.

Set Implicit Arguments.

(** ** The Python runtime the code relies on *)

Module Py.

(** The exceptions the modelled code can raise.  [UCVMError] is the typed
    failure of the error catalog; [ExternalError] stands for a failure of
    the file system or of the XML library. *)
Inductive exn : Type :=
| IndexError
| KeyError
| TypeError
| ValueError
| ZeroDivisionError
| AttributeError
| AssertionError
| UCVMError (code : Z) (args : list string)
| ExternalError.

Inductive PyResult (A : Type) : Type :=
| Ok (a : A)
| Raise (e : exn).

Arguments Ok {A} a.
Arguments Raise {A} e.

Definition bind {A B : Type} (m : PyResult A) (k : A -> PyResult B) : PyResult B :=
  match m with
  | Ok a => k a
  | Raise e => Raise e
  end.

Declare Scope py_scope.
Delimit Scope py_scope with py.
Notation "x <- m ;; k" := (bind m (fun x => k))
  (at level 61, m at next level, right associativity) : py_scope.

(** [a > b] on numbers, as a boolean. *)
Definition Qgtb (a b : Q) : bool := negb (Qle_bool a b).

(** [x == y] for two values that are each a number or [None]. *)
Definition opt_eqb (x y : option Q) : bool :=
  match x, y with
  | Some a, Some b => Qeq_bool a b
  | None, None => true
  | _, _ => false
  end.

(** [list[-1]]. *)
Definition last_item {A : Type} (l : list A) : PyResult A :=
  match rev l with
  | x :: _ => Ok x
  | [] => Raise IndexError
  end.

(** [l[i]] on a list, for an index [i >= 0]. *)
Definition item {A : Type} (l : list A) (i : nat) : PyResult A :=
  match nth_error l i with
  | Some x => Ok x
  | None => Raise IndexError
  end.

(** *** Strings *)

Local Open Scope string_scope.

Definition code (c : ascii) : nat := nat_of_ascii c.

(** [c.isspace()] on ASCII: tab to carriage return, the four separators
    and the space. *)
Definition isspace (c : ascii) : bool :=
  ((9 <=? code c) && (code c <=? 13) || (28 <=? code c) && (code c <=? 31)
   || (code c =? 32))%nat.

(** The one-character line boundaries of [str.splitlines]. *)
Definition is_linebreak (c : ascii) : bool :=
  ((10 <=? code c) && (code c <=? 13) || (28 <=? code c) && (code c <=? 30))%nat.

Definition snoc (s : string) (c : ascii) : string := s ++ String c "".

Definition flush (word : string) : list string :=
  match word with
  | "" => []
  | _ => [word]
  end.

(** [s.split()]: the maximal runs of characters that are not white space;
    [word] is the run being read. *)
Fixpoint split_from (word s : string) : list string :=
  match s with
  | "" => flush word
  | String c r =>
      if isspace c then flush word ++ split_from "" r
      else split_from (snoc word c) r
  end.

Definition split (s : string) : list string := split_from "" s.

(** [s.splitlines(keepends=False)]: a carriage return followed by a line
    feed is one boundary, and a final boundary opens no empty line. *)
Fixpoint splitlines_from (line s : string) : list string :=
  match s with
  | "" => flush line
  | String c r =>
      if (code c =? 13)%nat then
        match r with
        | String c' r' =>
            if (code c' =? 10)%nat then line :: splitlines_from "" r'
            else line :: splitlines_from "" r
        | "" => [line]
        end
      else if is_linebreak c then line :: splitlines_from "" r
      else splitlines_from (snoc line c) r
  end.

Definition splitlines (s : string) : list string := splitlines_from "" s.

(** [s.split(sep)] for a one-character separator. *)
Fixpoint split_on_from (sep : ascii) (field s : string) : list string :=
  match s with
  | "" => [field]
  | String c r =>
      if Ascii.eqb c sep then field :: split_on_from sep "" r
      else split_on_from sep (snoc field c) r
  end.

Definition split_on (sep : ascii) (s : string) : list string := split_on_from sep "" s.

Fixpoint lstrip (s : string) : string :=
  match s with
  | String c r => if isspace c then lstrip r else s
  | "" => ""
  end.

Definition reverse (s : string) : string :=
  string_of_list_ascii (rev (list_ascii_of_string s)).

(** [s.strip()]. *)
Definition strip (s : string) : string := reverse (lstrip (reverse (lstrip s))).

Definition lower_char (c : ascii) : ascii :=
  if ((65 <=? code c) && (code c <=? 90))%nat then ascii_of_nat (code c + 32) else c.

(** [s.lower()] on ASCII. *)
Fixpoint lower (s : string) : string :=
  match s with
  | "" => ""
  | String c r => String (lower_char c) (lower r)
  end.

(** [sep.join(l)]. *)
Definition join (sep : string) (l : list string) : string := String.concat sep l.

(** [x in l] on a list of strings. *)
Definition contains (l : list string) (x : string) : bool := existsb (String.eqb x) l.

(** [l.remove(x)]: the first occurrence goes; the code calls it only after
    [x in l]. *)
Fixpoint remove (x : string) (l : list string) : list string :=
  match l with
  | [] => []
  | y :: r => if String.eqb x y then r else y :: remove x r
  end.

Definition startswith (c : ascii) (s : string) : bool :=
  match s with
  | String c' _ => Ascii.eqb c c'
  | "" => false
  end.

Definition endswith (c : ascii) (s : string) : bool := startswith c (reverse s).

(** [os.path.join(path, b)] of [posixpath]: an absolute [b] replaces what
    came before it. *)
Definition path_join (path b : string) : string :=
  if startswith "/" b then b
  else if (match path with "" => true | _ => false end) || endswith "/" path then path ++ b
  else path ++ "/" ++ b.

(** *** Numeric literals *)

Definition is_digit (c : ascii) : bool := ((48 <=? code c) && (code c <=? 57))%nat.

(** The value of a run of decimal digits read after [acc]; [None] at a
    character that is no digit. *)
Fixpoint digits_from (acc : Z) (s : string) : option Z :=
  match s with
  | "" => Some acc
  | String c r =>
      if is_digit c then digits_from (10 * acc + Z.of_nat (code c - 48)) r
      else None
  end.

(** A run of at least one digit. *)
Definition digits (s : string) : option Z :=
  match s with
  | "" => None
  | _ => digits_from 0 s
  end.

(** An optional sign, split off. *)
Definition signed (s : string) : Z * string :=
  match s with
  | String "-" r => ((-1)%Z, r)
  | String "+" r => (1%Z, r)
  | _ => (1%Z, s)
  end.

(** [int(s)] on a string: white space around an optionally signed run of
    digits. *)
Definition py_int (s : string) : PyResult Z :=
  let '(sg, body) := signed (strip s) in
  match digits body with
  | Some n => Ok (sg * n)%Z
  | None => Raise ValueError
  end.

(** The text before and after the first [c] of [s], when there is one. *)
Fixpoint cut_at (c : ascii) (before s : string) : option (string * string) :=
  match s with
  | "" => None
  | String c' r =>
      if Ascii.eqb c c' then Some (before, r) else cut_at c (snoc before c') r
  end.

(** The digits of a mantissa [ddd], [ddd.], [ddd.ddd] or [.ddd]: its value
    without the point, and the number of digits after the point. *)
Definition mantissa (s : string) : option (Z * Z) :=
  match cut_at "." "" s with
  | None => option_map (fun m => (m, 0%Z)) (digits s)
  | Some (i, f) =>
      match i, f with
      | "", "" => None
      | _, _ =>
          match digits_from 0 (i ++ f) with
          | Some m => Some (m, Z.of_nat (String.length f))
          | None => None
          end
      end
  end.

(** The exponent part after [e]: an optionally signed run of digits. *)
Definition exponent_part (s : string) : option Z :=
  let '(sg, body) := signed s in option_map (Z.mul sg) (digits body).

(** [float(s)] on a string that spells a finite decimal number: white
    space, sign, mantissa, and an optional exponent after [e] or [E].  The
    value is exact.  Every other string raises [ValueError]; the
    spellings of the infinities and of NaN, and digits grouped by
    underscores, which Python accepts, are not modelled. *)
Definition py_float (s : string) : PyResult Q :=
  let '(sg, body) := signed (lower (strip s)) in
  let '(m, e) := match cut_at "e" "" body with
                 | Some (m, e) => (m, exponent_part e)
                 | None => (body, Some 0%Z)
                 end in
  match mantissa m, e with
  | Some (n, k), Some x => Ok (inject_Z (sg * n) * Qpower (inject_Z 10) (x - k))
  | _, _ => Raise ValueError
  end.

End Py.

(** ** [ucvm.src.shared.properties]: the data model the code fills in *)

Module Shared.
Import Py.

(** Modelled from the spec: the class [VelocityProperties] of
    [ucvm.src.shared.properties] is not among the sources.  It is the
    bundle of the five physical properties and of the five provenance
    strings, in the order of its constructor
    [VelocityProperties(vp, vs, density, qp, qs, vp_source, vs_source,
    density_source, qp_source, qs_source)]; an absent field is [None]. *)
Record VelocityProperties : Type := mkVelocityProperties {
  vp : option Q;
  vs : option Q;
  density : option Q;
  qp : option Q;
  qs : option Q;
  vp_source : option string;
  vs_source : option string;
  density_source : option string;
  qp_source : option string;
  qs_source : option string
}.

(** Modelled from the spec: the class [Point] of
    [ucvm.src.shared.properties] is not among the sources; the code reads
    and writes its three coordinates only. *)
Record Point : Type := mkPoint {
  x_value : Q;
  y_value : Q;
  z_value : Q
}.

(** Modelled from the spec: the class [SeismicData] of
    [ucvm.src.shared.properties] is not among the sources.  One query
    unit: the original point, the converted point, and the properties the
    query sets, [None] before it. *)
Record SeismicData : Type := mkSeismicData {
  original_point : Point;
  converted_point : Point;
  velocity_properties : option VelocityProperties
}.

(** [data.set_velocity_data(properties)]. *)
Definition set_velocity_data (data : SeismicData) (properties : VelocityProperties)
    : SeismicData :=
  mkSeismicData (original_point data) (converted_point data) (Some properties).

(** Modelled from the spec: [display_and_raise_error] of
    [ucvm.src.shared.errors] is not among the sources.  It renders the
    message of the catalog entry [code] with [args] and raises a typed
    failure that carries the code. *)
Definition display_and_raise_error {A : Type} (code : Z) (args : list string)
    : PyResult A :=
  Raise (UCVMError code args).

End Shared.

(** ** [onedimensional.py]: the depth lookup *)

Module OneDimensional.
Import Py Shared.
Local Open Scope string_scope.
Local Open Scope list_scope.
Local Open Scope Q_scope.
Local Open Scope py_scope.

(** A layer is the six-element list
    [[depth, vp, vs, density, qp, qs]]; the lookup tests every property
    against [None], so each of them is optional here. *)
Record Layer : Type := mkLayer {
  l_depth : Q;
  l_vp : option Q;
  l_vs : option Q;
  l_density : option Q;
  l_qp : option Q;
  l_qs : option Q
}.

(** [a == b] on two layers: element by element. *)
Definition layer_eqb (a b : Layer) : bool :=
  Qeq_bool (l_depth a) (l_depth b)
  && opt_eqb (l_vp a) (l_vp b)
  && opt_eqb (l_vs a) (l_vs b)
  && opt_eqb (l_density a) (l_density b)
  && opt_eqb (l_qp a) (l_qp b)
  && opt_eqb (l_qs a) (l_qs b).

(** [previous_layer == current_layer], where either may still be [None]. *)
Definition opt_layer_eqb (a b : option Layer) : bool :=
  match a, b with
  | Some x, Some y => layer_eqb x y
  | None, None => true
  | _, _ => false
  end.

(** The [for layer in layers] loop: [(previous_layer, current_layer)] when
    the loop ends, by [break] or by exhaustion. *)
Fixpoint scan (depth : Q) (previous_layer current_layer : option Layer)
    (layers : list Layer) : option Layer * option Layer :=
  match layers with
  | [] => (previous_layer, current_layer)
  | layer :: rest =>
      let previous_layer := current_layer in
      let current_layer := Some layer in
      if Qgtb (l_depth layer) depth
      then (previous_layer, current_layer)
      else scan depth previous_layer current_layer rest
  end.

(** [x[i]] for a layer variable that may hold [None]. *)
Definition subscript {A : Type} (x : option Layer) (f : Layer -> A) : PyResult A :=
  match x with
  | Some l => Ok (f l)
  | None => Raise TypeError
  end.

(** [percentage * (current_layer[i] - previous_layer[i]) + previous_layer[i]
    if previous_layer[i] is not None else None]. *)
Definition interpolate_field (percentage : Q) (current previous : option Q)
    : PyResult (option Q) :=
  match previous with
  | None => Ok None
  | Some p =>
      match current with
      | Some c => Ok (Some (percentage * (c - p) + p))
      | None => Raise TypeError
      end
  end.

(** [a / b] on floats. *)
Definition truediv (a b : Q) : PyResult Q :=
  if Qeq_bool b 0 then Raise ZeroDivisionError else Ok (a / b).

Definition interpolated (name : string) : string := (name ++ " (interpolated)")%string.

(** [_get_velocity_data(depth, layers, interpolate, name)]: the result, and
    the list [layers] as the call leaves it. *)
Definition _get_velocity_data (depth : Q) (layers : list Layer) (interpolate : bool)
    (name : string) : PyResult VelocityProperties * list Layer :=
  match last_item layers with
  | Raise e => (Raise e, layers)
  | Ok sentinel =>
      let layers := layers ++ [sentinel] in
      let '(previous_layer, current_layer) := scan depth None None layers in
      (if opt_layer_eqb previous_layer current_layer then
         c <- subscript current_layer (fun l => l) ;;
         Ok (mkVelocityProperties (l_vp c) (l_vs c) (l_density c) (l_qp c) (l_qs c)
               (Some name) (Some name) (Some name) (Some name) (Some name))
       else if interpolate then
         d0 <- subscript previous_layer l_depth ;;
         d1 <- subscript current_layer l_depth ;;
         percentage <- truediv (depth - d0) (d1 - d0) ;;
         p <- subscript previous_layer (fun l => l) ;;
         c <- subscript current_layer (fun l => l) ;;
         f1 <- interpolate_field percentage (l_vp c) (l_vp p) ;;
         f2 <- interpolate_field percentage (l_vs c) (l_vs p) ;;
         f3 <- interpolate_field percentage (l_density c) (l_density p) ;;
         f4 <- interpolate_field percentage (l_qp c) (l_qp p) ;;
         f5 <- interpolate_field percentage (l_qs c) (l_qs p) ;;
         Ok (mkVelocityProperties f1 f2 f3 f4 f5
               (Some (interpolated name)) (Some (interpolated name))
               (Some (interpolated name)) (Some (interpolated name))
               (Some (interpolated name)))
       else
         p <- subscript previous_layer (fun l => l) ;;
         Ok (mkVelocityProperties (l_vp p) (l_vs p) (l_density p) (l_qp p) (l_qs p)
               (Some name) (Some name) (Some name) (Some name) (Some name)),
       layers)
  end.

(** ** [onedimensional.py]: the two profile formats *)

Section Parsing.

(** The helpers of [ucvm.src.shared.functions], which the parsers call.
    [is_number] classifies a token as numeric without raising;
    [calculate_scaled_density] and [calculate_scaled_vs] are the empirical
    relations that fill in a missing density and a missing vs. *)
Variable is_number : string -> bool.
Variable calculate_scaled_density : Q -> Q.
Variable calculate_scaled_vs : Q -> Q -> Q.

(** [float(split_str[i]) * 1000 if len(split_str) > i else otherwise]. *)
Definition scaled_column (split_str : list string) (i : nat) (otherwise : Q) : PyResult Q :=
  if (i <? List.length split_str)%nat then
    t <- item split_str i ;; f <- py_float t ;; Ok (f * 1000)
  else Ok otherwise.

(** [float(split_str[i]) if len(split_str) > i else None]. *)
Definition optional_column (split_str : list string) (i : nat) : PyResult (option Q) :=
  if (i <? List.length split_str)%nat then
    t <- item split_str i ;; f <- py_float t ;; Ok (Some f)
  else Ok None.

(** The layer a numeric line adds, at depth [current_depth]. *)
Definition bbp_layer (current_depth : Q) (split_str : list string) : PyResult Layer :=
  t1 <- item split_str 1 ;;
  f1 <- py_float t1 ;;
  let p_velocity := f1 * 1000 in
  density <- scaled_column split_str 3 (calculate_scaled_density p_velocity) ;;
  s_velocity <- scaled_column split_str 2 (calculate_scaled_vs p_velocity density) ;;
  qp_attenuation <- optional_column split_str 4 ;;
  qs_attenuation <- optional_column split_str 5 ;;
  Ok (mkLayer current_depth (Some p_velocity) (Some s_velocity) (Some density)
        qp_attenuation qs_attenuation).

(** The body of the loop of [_parse_bbp_model] on the lines still to read:
    the exception that ended the loop, if any, and [layers] as the loop
    leaves it. *)
Fixpoint bbp_lines (current_depth : Q) (lines : list string) (layers : list Layer)
    : PyResult unit * list Layer :=
  match lines with
  | [] => (Ok tt, layers)
  | line :: rest =>
      let split_str := split line in
      match split_str with
      | [] => bbp_lines current_depth rest layers
      | leading :: _ =>
          if is_number leading then
            match bbp_layer current_depth split_str with
            | Raise e => (Raise e, layers)
            | Ok layer =>
                let layers := layers ++ [layer] in
                match py_float leading with
                | Raise e => (Raise e, layers)
                | Ok thickness => bbp_lines (current_depth + thickness * 1000) rest layers
                end
            end
          else bbp_lines current_depth rest layers
      end
  end.

(** [_parse_bbp_model(text_info, layers)]. *)
Definition _parse_bbp_model (text_info : string) (layers : list Layer)
    : PyResult unit * list Layer :=
  bbp_lines 0 (splitlines text_info) layers.

(** One [layer] element of the XML layer list, as the XML library hands
    it over: its attributes and children by name, each a text. *)
Definition XmlLayer : Type := list (string * string).

(** [layer[key]]. *)
Fixpoint xml_get (layer : XmlLayer) (key : string) : PyResult string :=
  match layer with
  | [] => Raise KeyError
  | (k, v) :: rest => if String.eqb k key then Ok v else xml_get rest key
  end.

(** [key in layer]. *)
Definition xml_has (layer : XmlLayer) (key : string) : bool :=
  existsb (fun kv => String.eqb (fst kv) key) layer.

(** [float(layer[key]) if key in layer else None]. *)
Definition xml_optional (layer : XmlLayer) (key : string) : PyResult (option Q) :=
  if xml_has layer key then
    t <- xml_get layer key ;; f <- py_float t ;; Ok (Some f)
  else Ok None.

(** A value of [layer_dict]. *)
Record ScecEntry : Type := mkScecEntry {
  e_depth : Q;
  e_vp : option Q;
  e_vs : option Q;
  e_density : option Q;
  e_qp : option Q;
  e_qs : option Q
}.

(** [layer_dict], a [dict] from layer number to entry: one pair per key. *)
Definition LayerDict : Type := list (Z * ScecEntry).

(** [layer_dict[number] = entry]. *)
Fixpoint dict_set (layer_dict : LayerDict) (number : Z) (entry : ScecEntry) : LayerDict :=
  match layer_dict with
  | [] => [(number, entry)]
  | (k, v) :: rest =>
      if Z.eqb k number then (k, entry) :: rest
      else (k, v) :: dict_set rest number entry
  end.

(** [layer_dict[i]]. *)
Fixpoint dict_get (layer_dict : LayerDict) (i : Z) : PyResult ScecEntry :=
  match layer_dict with
  | [] => Raise KeyError
  | (k, v) :: rest => if Z.eqb k i then Ok v else dict_get rest i
  end.

(** The first loop of [_parse_scec_model]. *)
Fixpoint scec_collect (records : list XmlLayer) (layer_dict : LayerDict)
    : PyResult LayerDict :=
  match records with
  | [] => Ok layer_dict
  | layer :: rest =>
      td <- xml_get layer "depth" ;;
      depth <- py_float td ;;
      vp <- xml_optional layer "vp" ;;
      vs <- xml_optional layer "vs" ;;
      density <- xml_optional layer "density" ;;
      qp <- xml_optional layer "qp" ;;
      qs <- xml_optional layer "qs" ;;
      tn <- xml_get layer "@number" ;;
      number <- py_int tn ;;
      scec_collect rest (dict_set layer_dict number (mkScecEntry depth vp vs density qp qs))
  end.

(** [x * 1000] for an [x] that may be [None]. *)
Definition times_1000 (x : option Q) : PyResult Q :=
  match x with
  | Some v => Ok (v * 1000)
  | None => Raise TypeError
  end.

(** The second loop of [_parse_scec_model], for [i] in [numbers]. *)
Fixpoint scec_layers (layer_dict : LayerDict) (last_depth : Q) (numbers : list Z)
    (layers : list Layer) : PyResult unit * list Layer :=
  match numbers with
  | [] => (Ok tt, layers)
  | i :: rest =>
      match
        (entry <- dict_get layer_dict i ;;
         p_velocity <- times_1000 (e_vp entry) ;;
         let density := match e_density entry with
                        | Some d => d * 1000
                        | None => calculate_scaled_density p_velocity
                        end in
         let s_velocity := match e_vs entry with
                           | Some v => v * 1000
                           | None => calculate_scaled_vs p_velocity density
                           end in
         Ok (mkLayer last_depth (Some p_velocity) (Some s_velocity) (Some density)
               (e_qp entry) (e_qs entry), e_depth entry * 1000))
      with
      | Raise e => (Raise e, layers)
      | Ok (layer, depth) => scec_layers layer_dict depth rest (layers ++ [layer])
      end
  end.

(** [range(1, n + 1)]. *)
Definition range_from_1 (n : nat) : list Z := map (fun k => Z.of_nat (S k)) (seq 0 n).

(** [_parse_scec_model(data_info, layers)], on the list
    [data_info["layers"]["layer"]]. *)
Definition _parse_scec_model (records : list XmlLayer) (layers : list Layer)
    : PyResult unit * list Layer :=
  match scec_collect records [] with
  | Raise e => (Raise e, layers)
  | Ok layer_dict => scec_layers layer_dict 0 (range_from_1 (List.length layer_dict)) layers
  end.

End Parsing.

(** ** [onedimensional.py]: the query *)

(** What the code reads of the parsed profile file [model_1d]:
    [p_name], [p_format] and [p_interpolation] are [str] of the three
    entries of [model_1d["root"]], [p_text] is [str(model_1d["root"]["data"])]
    and [p_records] is the list [model_1d["root"]["data"]["layers"]["layer"]],
    [None] when that entry cannot be read. *)
Record Profile : Type := mkProfile {
  p_name : string;
  p_format : string;
  p_interpolation : string;
  p_text : string;
  p_records : option (list XmlLayer)
}.

Section Query.

Variable is_number : string -> bool.
Variable calculate_scaled_density : Q -> Q.
Variable calculate_scaled_vs : Q -> Q -> Q.

(** [self.model_location]. *)
Variable model_location : string.

(** [os.path.exists]. *)
Variable path_exists : string -> bool.

(** [xmltodict.parse] of the content of the file at a path; [None] when
    the file cannot be read or holds no profile. *)
Variable read_profile : string -> option Profile.

(** The first part of [_query]: the interpolation the parameters force,
    if any, the value of [kwargs["params"]], and the list [paths]. *)
Definition select_profile (params : option string)
    : option string * string * list string :=
  match params with
  | Some params =>
      let split_str := map (fun x => lower (strip x)) (split_on "," params) in
      if (1 <? List.length split_str)%nat then
        let '(interpolation, split_str) :=
          if contains split_str "linear" then (Some "linear", remove "linear" split_str)
          else if contains split_str "none" then (Some "none", remove "none" split_str)
          else (None, split_str) in
        (interpolation, params,
         [ path_join "." (join "," split_str ++ ".mdl")%string;
           path_join (path_join model_location "data")
             (join "," split_str ++ ".mdl")%string ])
      else
        (None, params,
         [ path_join "." (params ++ ".mdl")%string;
           path_join (path_join model_location "data") (params ++ ".mdl")%string ])
  | None =>
      (None, "SCEC 1D",
       [ path_join (path_join model_location "data") "SCEC 1D.mdl" ])
  end.

(** The loop [for path in paths]: the value of [xml_file] after it. *)
Fixpoint first_existing (paths : list string) : option string :=
  match paths with
  | [] => None
  | path :: rest => if path_exists path then Some path else first_existing rest
  end.

(** The loop over [data]: every point is looked up in the same list
    [layers], which the lookups extend. *)
Fixpoint query_points (data : list SeismicData) (layers : list Layer)
    (interpolate : bool) (name : string) : PyResult bool * list SeismicData :=
  match data with
  | [] => (Ok true, [])
  | d :: rest =>
      match _get_velocity_data (z_value (converted_point d)) layers interpolate name with
      | (Raise e, _) => (Raise e, d :: rest)
      | (Ok properties, layers) =>
          let '(r, rest) := query_points rest layers interpolate name in
          (r, set_velocity_data d properties :: rest)
      end
  end.

(** The layers of a profile, parsed into an empty list. *)
Definition parse_layers (model_1d : Profile) (format : string)
    : PyResult unit * list Layer :=
  if String.eqb format "bbp" then
    _parse_bbp_model is_number calculate_scaled_density calculate_scaled_vs
      (p_text model_1d) []
  else
    match p_records model_1d with
    | Some records =>
        _parse_scec_model calculate_scaled_density calculate_scaled_vs records []
    | None => (Raise TypeError, [])
    end.

(** [_query(data, **kwargs)], where [params] is [kwargs["params"]] when
    the caller gave it: the result, and [data] as the call leaves it. *)
Definition _query (data : list SeismicData) (params : option string)
    : PyResult bool * list SeismicData :=
  let '(interpolation, params, paths) := select_profile params in
  match first_existing paths with
  | None => (display_and_raise_error 13 [params], data)
  | Some xml_file =>
      match read_profile xml_file with
      | None => (Raise ExternalError, data)
      | Some model_1d =>
          let name := lower (strip (p_name model_1d)) in
          let format := lower (strip (p_format model_1d)) in
          let interpolation :=
            match interpolation with
            | None => lower (strip (p_interpolation model_1d))
            | Some forced => forced
            end in
          match parse_layers model_1d format with
          | (Raise e, _) => (Raise e, data)
          | (Ok _, layers) =>
              query_points data layers (String.eqb interpolation "linear") name
          end
      end
  end.

End Query.

End OneDimensional.

(** ** [setup.py]: the human-readable size *)

Module Setup.
Import Py.
Local Open Scope string_scope.
Local Open Scope Q_scope.

(** [round] to the nearest integer, a tie to the even one: how Python
    rounds in [round(x, n)] and in the format [{:.nf}]. *)
Definition round_half_even (x : Q) : Z :=
  let f := Qfloor x in
  match Qcompare (x - inject_Z f) (1 # 2) with
  | Lt => f
  | Gt => (f + 1)%Z
  | Eq => if Z.even f then f else (f + 1)%Z
  end.

(** The decimal digits of a natural number. *)
Definition str_of_N (n : Z) : string := NilZero.string_of_uint (N.to_uint (Z.to_N n)).

(** [s.rjust(width, "0")]. *)
Fixpoint zfill (width : nat) (s : string) : string :=
  if (String.length s <? width)%nat then
    match width with
    | O => s
    | S w => String "0" (zfill w s)
    end
  else s.

(** ['{:.nf}'.format(x)] for [n = num_decimals]: [x] rounded to [n]
    decimals, all of them printed, and no point when there is none. *)
Definition format_f (num_decimals : nat) (x : Q) : string :=
  let scale := (10 ^ Z.of_nat num_decimals)%Z in
  let n := round_half_even (Qabs x * inject_Z scale) in
  let sign := if Qgtb 0 x then "-" else "" in
  let whole := str_of_N (n / scale) in
  match num_decimals with
  | O => sign ++ whole
  | _ => sign ++ whole ++ "." ++ zfill num_decimals (str_of_N (n mod scale))
  end.

Definition unit_list : list (string * nat) :=
  [("bytes", 0%nat); ("kB", 0%nat); ("MB", 1%nat); ("GB", 2%nat); ("TB", 2%nat);
   ("PB", 2%nat)].

Section Logarithm.

(** [int(log(num, 1024))] for a [num] above 1.  [math.log] computes the
    logarithm in floating point, so its integer part is taken as it
    comes, whatever it is; it is not negative, the logarithm of a number
    above 1 being positive.  Next to a power of 1024 it need not be the
    integer part of the exact logarithm. *)
Variable int_log_1024 : Q -> nat.

(** [sizeof_fmt(num)]; [None] is the [None] a Python function returns
    when it ends without a [return]. *)
Definition sizeof_fmt (num : Q) : option string :=
  if Qgtb num 1 then
    let exponent := Nat.min (int_log_1024 num) (List.length unit_list - 1) in
    let quotient := num / inject_Z (1024 ^ Z.of_nat exponent) in
    let '(unit, num_decimals) := nth exponent unit_list ("", 0%nat) in
    Some (format_f num_decimals quotient ++ " " ++ unit)
  else if Qeq_bool num 0 then Some "0 bytes"
  else if Qeq_bool num 1 then Some "1 byte"
  else None.

End Logarithm.

End Setup.

(** ** [shared/test.py]: the acceptance test *)

Module SharedTest.
Import Py Shared.
Local Open Scope string_scope.
Local Open Scope list_scope.
Local Open Scope Q_scope.
Local Open Scope py_scope.

(** [test_case.assertAlmostEqual(first, second, places)] of [unittest]:
    equal values pass, then values whose difference rounds to zero at
    [places] decimals; a [first] that is [None] cannot be subtracted. *)
Definition assertAlmostEqual (first : option Q) (second : Q) (places : nat)
    : PyResult unit :=
  match first with
  | None => Raise TypeError
  | Some first =>
      if Qeq_bool first second then Ok tt
      else
        let diff := Qabs (first - second) in
        if Z.eqb (Setup.round_half_even (diff * inject_Z (10 ^ Z.of_nat places))) 0
        then Ok tt
        else Raise AssertionError
  end.

(** The reference array [arr] of [np.load]: its first three dimensions,
    and [arr[x][y][z][p]]. *)
Record Reference : Type := mkReference {
  len_x : nat;
  len_y : nat;
  len_z : nat;
  at_ : nat -> nat -> nat -> nat -> Q
}.

Definition is_None {A : Type} (x : option A) : bool :=
  match x with
  | None => true
  | Some _ => false
  end.

(** The condition of the [if] that ends in [continue]. *)
Definition skips (arr : Reference) (x y z : nat) (live : VelocityProperties) : bool :=
  Qle_bool (at_ arr x y z 0%nat) 0 && is_None (vp live)
  || Qle_bool (at_ arr x y z 1%nat) 0 && is_None (vs live)
  || Qle_bool (at_ arr x y z 2%nat) 0 && is_None (density live).

(** The comparisons the body of the loop makes at one point, in their
    order: the live value, and the reference value it is asserted to
    equal. *)
Definition comparisons (arr : Reference) (x y z : nat) (live : VelocityProperties)
    : list (option Q * Q) :=
  if skips arr x y z live then []
  else [ (vp live, at_ arr x y z 0%nat);
         (vs live, at_ arr x y z 1%nat);
         (density live, at_ arr x y z 2%nat) ].

(** The assertions of a list of comparisons, until one raises. *)
Fixpoint assert_all (cs : list (option Q * Q)) : PyResult unit :=
  match cs with
  | [] => Ok tt
  | (first, second) :: rest =>
      _ <- assertAlmostEqual first second 0 ;; assert_all rest
  end.

(** The body of the innermost loop at the point [(x, y, z)], whose
    query unit holds [properties]. *)
Definition check_point (arr : Reference) (x y z : nat)
    (properties : option VelocityProperties) : PyResult unit :=
  match properties with
  | None => Raise AttributeError
  | Some live => assert_all (comparisons arr x y z live)
  end.

(** The points of the grid in the order of the three nested loops: [x]
    outermost, [z] innermost. *)
Definition grid (nx ny nz : nat) : list (nat * nat * nat) :=
  flat_map (fun x => flat_map (fun y => map (fun z => (x, y, z)) (seq 0 nz)) (seq 0 ny))
    (seq 0 nx).

(** The second triple loop, from the point numbered [counter] on;
    [sd_array counter] is [sd_array[counter].velocity_properties]. *)
Fixpoint check_points (arr : Reference) (sd_array : nat -> option VelocityProperties)
    (counter : nat) (points : list (nat * nat * nat)) : PyResult unit :=
  match points with
  | [] => Ok tt
  | (x, y, z) :: rest =>
      _ <- check_point arr x y z (sd_array counter) ;;
      check_points arr sd_array (S counter) rest
  end.

Section Acceptance.

(** [UCVM_MODELS_DIRECTORY] of [ucvm.src.shared.constants]. *)
Variable UCVM_MODELS_DIRECTORY : string.

(** [os.path.exists]. *)
Variable path_exists : string -> bool.

(** What the code reads of [ucvm_model.xml]: the two coordinates of the
    bottom-left corner of the coverage, and the type of the model. *)
Variable read_model : string -> PyResult (Q * Q * string).

(** [np.load]. *)
Variable np_load : string -> Reference.

(** [UCVM.query(sd_array, model_id, [model_type])] on fresh query units
    with the given original points: the properties it leaves in the unit
    of each number. *)
Variable UCVM_query :
  list Point -> string -> list string -> PyResult (nat -> option VelocityProperties).

Definition spacing : Q := 5 # 100.
Definition depth : Q := 5000.

(** [run_acceptance_test(test_case, model_id)]. *)
Definition run_acceptance_test (model_id : string) : PyResult bool :=
  let dir := path_join UCVM_MODELS_DIRECTORY model_id in
  let npy_test_file := path_join dir ("test_" ++ model_id ++ ".npy")%string in
  let ucvm_model_file := path_join dir "ucvm_model.xml" in
  if negb (path_exists npy_test_file) || negb (path_exists ucvm_model_file) then Ok false
  else
    ucvm_model <- read_model ucvm_model_file ;;
    let '(e, n, model_type) := ucvm_model in
    let arr := np_load npy_test_file in
    if ((len_x arr =? 0) || (len_y arr =? 0))%nat then Raise IndexError
    else
      let points := grid (len_x arr) (len_y arr) (len_z arr) in
      let original_points :=
        map (fun '(x, y, z) =>
               mkPoint (e + spacing * inject_Z (Z.of_nat x))
                       (n + spacing * inject_Z (Z.of_nat y))
                       (0 + depth * inject_Z (Z.of_nat z))) points in
      sd_array <- UCVM_query original_points model_id [model_type] ;;
      _ <- check_points arr sd_array 0 points ;;
      Ok true.

End Acceptance.

End SharedTest.

(** ** [setup.py]: the choice of the models and the report of their sizes *)

Module SetupScript.
Import Py.
Local Open Scope string_scope.
Local Open Scope list_scope.

(** An [inner_item] of [get_list_of_installable_internet_models]: what
    the function extracts of one [model] element of the catalog. *)
Record CatalogItem : Type := mkCatalogItem {
  c_id : string;
  c_description : string;
  c_name : string;
  c_coverage : string;
  c_type : string
}.

(** The dictionary [installable_models], with its four keys. *)
Record Catalog : Type := mkCatalog {
  velocity : list CatalogItem;
  elevation : list CatalogItem;
  vs30 : list CatalogItem;
  modifier : list CatalogItem
}.

(** [installable_models[inner_item["type"]].append(inner_item)]. *)
Definition file_item (inner_item : CatalogItem) (installable_models : Catalog)
    : PyResult Catalog :=
  let m := installable_models in
  if String.eqb (c_type inner_item) "velocity" then
    Ok (mkCatalog (velocity m ++ [inner_item]) (elevation m) (vs30 m) (modifier m))
  else if String.eqb (c_type inner_item) "elevation" then
    Ok (mkCatalog (velocity m) (elevation m ++ [inner_item]) (vs30 m) (modifier m))
  else if String.eqb (c_type inner_item) "vs30" then
    Ok (mkCatalog (velocity m) (elevation m) (vs30 m ++ [inner_item]) (modifier m))
  else if String.eqb (c_type inner_item) "modifier" then
    Ok (mkCatalog (velocity m) (elevation m) (vs30 m) (modifier m ++ [inner_item]))
  else Raise KeyError.

(** The loop of [get_list_of_installable_internet_models] over the items
    of the catalog, in the order of the document. *)
Fixpoint file_items (all_models : list CatalogItem) (installable_models : Catalog)
    : PyResult Catalog :=
  match all_models with
  | [] => Ok installable_models
  | model_item :: rest =>
      match file_item model_item installable_models with
      | Ok m => file_items rest m
      | Raise e => Raise e
      end
  end.

Definition installable (all_models : list CatalogItem) : PyResult Catalog :=
  file_items all_models (mkCatalog [] [] [] []).

(** What the script has written and read: the texts of its [print]s and
    the prompts of its [input]s, in their order, and the number of lines
    it has read. *)
Inductive event : Type :=
| Printed (text : string)
| Prompted (prompt : string).

Record Console : Type := mkConsole {
  shown : list event;
  lines_read : nat
}.

Definition print (text : string) (console : Console) : Console :=
  mkConsole (shown console ++ [Printed text]) (lines_read console).

(** The models the script installs in any case. *)
Definition models_to_download : list (string * string) :=
  [ ("onedimensional", "1D");
    ("usgs-noaa", "USGS/NOAA Digital Elevation Model");
    ("wills-wald-2006", "Wills-Wald Vs30");
    ("vs30-calc", "Calculated Vs30 from the model (top 30 meters slowness)") ].

(** [(item["id"], item["name"]) in models_to_download]. *)
Definition chosen (item : CatalogItem) (models : list (string * string)) : bool :=
  existsb (fun m => String.eqb (fst m) (c_id item) && String.eqb (snd m) (c_name item))
    models.

(** [str(answer).strip().lower()[:1] == "y"]. *)
Definition says_yes (answer : string) : bool :=
  String.eqb (substring 0 1 (lower (strip answer))) "y".

Definition upper_char (c : ascii) : ascii :=
  if ((97 <=? code c) && (code c <=? 122))%nat then ascii_of_nat (code c - 32) else c.

(** [s.capitalize()] on ASCII. *)
Definition capitalize (s : string) : string :=
  match s with
  | "" => ""
  | String c r => String (upper_char c) (lower r)
  end.

Definition newline : string := String (ascii_of_nat 10) "".

Section Choice.

(** [download_everything]: the script was called with [--everything]. *)
Variable download_everything : bool.

(** The lines the user types, by their number. *)
Variable typed : nat -> string.

(** [input(prompt)]. *)
Definition input (prompt : string) (console : Console) : string * Console :=
  (typed (lines_read console),
   mkConsole (shown console ++ [Prompted prompt]) (S (lines_read console))).

(** The loop [for item in models] of one category. *)
Fixpoint offer (models : list CatalogItem) (selected : list (string * string))
    (console : Console) : list (string * string) * Console :=
  match models with
  | [] => (selected, console)
  | item :: rest =>
      if chosen item selected then offer rest selected console
      else
        let console := print ("Name:   " ++ c_name item) console in
        let console := print ("Covers: " ++ c_coverage item) console in
        let console := print (c_description item) console in
        let '(selected, console) :=
          if download_everything then (selected ++ [(c_id item, c_name item)], console)
          else
            let '(answer, console) :=
              input ("Would you like to install " ++ c_name item ++ "?" ++ newline
                     ++ "Type yes or y to install, no or n to pass: ") console in
            if says_yes answer then (selected ++ [(c_id item, c_name item)], console)
            else (selected, console) in
        offer rest selected (print "" console)
  end.

(** The body of the loop [for key, models in model_list.items()]. *)
Definition offer_category (key : string) (models : list CatalogItem)
    (selected : list (string * string)) (console : Console)
    : list (string * string) * Console :=
  if (List.length (filter (fun x => negb (chosen x selected)) models) =? 0)%nat
  then (selected, console)
  else
    let console := print (capitalize key ++ " Models:" ++ newline) console in
    let '(selected, console) := offer models selected console in
    (selected, print "" console).

(** The whole loop, over the four categories in the order of
    [model_list]. *)
Definition choose (model_list : Catalog) (selected : list (string * string))
    (console : Console) : list (string * string) * Console :=
  let '(selected, console) :=
    offer_category "velocity" (velocity model_list) selected console in
  let '(selected, console) :=
    offer_category "elevation" (elevation model_list) selected console in
  let '(selected, console) :=
    offer_category "vs30" (vs30 model_list) selected console in
  offer_category "modifier" (modifier model_list) selected console.

End Choice.

(** [s.ljust(width)] and [s.rjust(width)]. *)
Fixpoint spaces (n : nat) : string :=
  match n with
  | O => ""
  | S k => String " " (spaces k)
  end.

Definition ljust (width : nat) (s : string) : string :=
  s ++ spaces (width - String.length s).

Definition rjust (width : nat) (s : string) : string :=
  spaces (width - String.length s) ++ s.

(** [item[1][:42] + "..." if len(item[1]) > 45 else item[1]]. *)
Definition shown_name (name : string) : string :=
  if (45 <? String.length name)%nat then substring 0 42 name ++ "..." else name.

Section Report.

(** [int(log(num, 1024))], as [sizeof_fmt] takes it. *)
Variable int_log_1024 : Q -> nat.

(** [int(model_file.headers["Content-Length"])] for the archive of the
    model with a given id. *)
Variable content_length : string -> Z.

(** [x.rjust(10)] for what [sizeof_fmt] returned. *)
Definition rjust_size (size : option string) : PyResult string :=
  match size with
  | Some s => Ok (rjust 10 s)
  | None => Raise AttributeError
  end.

(** The loop [for item in models_to_download] of the report: the total
    size and the console after it. *)
Fixpoint report (models : list (string * string)) (total_model_size : Z)
    (console : Console) : PyResult (Z * Console) :=
  match models with
  | [] => Ok (total_model_size, console)
  | item :: rest =>
      let model_size := content_length (fst item) in
      let total_model_size := (total_model_size + model_size)%Z in
      match rjust_size (Setup.sizeof_fmt int_log_1024 (inject_Z model_size)) with
      | Raise e => Raise e
      | Ok size =>
          report rest total_model_size
            (print ("   - " ++ ljust 55 (shown_name (snd item))
                    ++ ljust 20 (" (" ++ fst item ++ ")") ++ size) console)
      end
  end.

(** The report with its first and its last line. *)
Definition report_sizes (models : list (string * string)) (console : Console)
    : PyResult (Z * Console) :=
  match report models 0
          (print "You have selected to install the following models: " console) with
  | Raise e => Raise e
  | Ok (total_model_size, console) =>
      match Setup.sizeof_fmt int_log_1024 (inject_Z total_model_size) with
      | Some size =>
          Ok (total_model_size,
              print (newline ++ "Your total download size will be: " ++ size) console)
      | None => Raise TypeError
      end
  end.

End Report.

End SetupScript.

(** ** [shared/test.py]: the comparison of two results *)

Module SharedAssert.
Import Py Shared.
Local Open Scope string_scope.
Local Open Scope list_scope.
Local Open Scope Q_scope.

(** What an attribute of a [VelocityProperties] holds when it is not
    [None]: a number or a text. *)
Inductive value : Type :=
| Number (x : Q)
| Text (s : string).

(** Modelled from the spec: the names [dir()] lists for a
    [VelocityProperties], in its alphabetical order, without those that
    start with an underscore (the loop skips them): the ten fields, and
    the two names [count] and [index] that the loop skips by name. *)
Definition dir : list string :=
  [ "count"; "density"; "density_source"; "index"; "qp"; "qp_source"; "qs";
    "qs_source"; "vp"; "vp_source"; "vs"; "vs_source" ].

(** [getattr(properties, name)] for the name of a field. *)
Definition getattr (properties : VelocityProperties) (name : string) : option value :=
  if String.eqb name "density" then option_map Number (density properties)
  else if String.eqb name "density_source" then option_map Text (density_source properties)
  else if String.eqb name "qp" then option_map Number (qp properties)
  else if String.eqb name "qp_source" then option_map Text (qp_source properties)
  else if String.eqb name "qs" then option_map Number (qs properties)
  else if String.eqb name "qs_source" then option_map Text (qs_source properties)
  else if String.eqb name "vp" then option_map Number (vp properties)
  else if String.eqb name "vp_source" then option_map Text (vp_source properties)
  else if String.eqb name "vs" then option_map Number (vs properties)
  else if String.eqb name "vs_source" then option_map Text (vs_source properties)
  else None.

(** [first == second] on two attributes. *)
Definition value_eqb (first second : option value) : bool :=
  match first, second with
  | None, None => true
  | Some (Number a), Some (Number b) => Qeq_bool a b
  | Some (Text a), Some (Text b) => String.eqb a b
  | _, _ => false
  end.

(** [float(x)] on the value of an attribute. *)
Definition float (x : value) : PyResult Q :=
  match x with
  | Number a => Ok a
  | Text s => py_float s
  end.

Definition assertIsNotNone {A : Type} (x : option A) : PyResult A :=
  match x with
  | Some a => Ok a
  | None => Raise AssertionError
  end.

Definition assertIsNone {A : Type} (x : option A) : PyResult unit :=
  match x with
  | None => Ok tt
  | Some _ => Raise AssertionError
  end.

Definition assertEqual (first second : option value) : PyResult unit :=
  if value_eqb first second then Ok tt else Raise AssertionError.

(** [assertAlmostEqual(first, second, places)] on two attributes, the
    first of which is not [None]: only two numbers can be subtracted. *)
Definition assertAlmostEqual (first : value) (second : option value) (places : nat)
    : PyResult unit :=
  if value_eqb (Some first) second then Ok tt
  else
    match first, second with
    | Number a, Some (Number b) =>
        if Z.eqb (Setup.round_half_even (Qabs (a - b) * inject_Z (10 ^ Z.of_nat places))) 0
        then Ok tt
        else Raise AssertionError
    | _, _ => Raise TypeError
    end.

(** ["_" in prop[0:1] or prop == "count" or prop == "index"]. *)
Definition skipped_name (prop : string) : bool :=
  String.eqb (substring 0 1 prop) "_" || String.eqb prop "count" || String.eqb prop "index".

(** The body of the loop for one name. *)
Definition compare_attribute (live expected : VelocityProperties) (prop : string)
    : PyResult unit :=
  if skipped_name prop then Ok tt
  else
    match getattr live prop with
    | None => assertIsNone (getattr expected prop)
    | Some x =>
        match float x with
        | Ok _ => assertAlmostEqual x (getattr expected prop) 3
        | Raise ValueError => assertEqual (Some x) (getattr expected prop)
        | Raise e => Raise e
        end
    end.

Fixpoint compare_attributes (live expected : VelocityProperties) (names : list string)
    : PyResult unit :=
  match names with
  | [] => Ok tt
  | prop :: rest =>
      match compare_attribute live expected prop with
      | Ok _ => compare_attributes live expected rest
      | Raise e => Raise e
      end
  end.

(** [assert_velocity_properties(test_case, data, velocity_prop)]. *)
Definition assert_velocity_properties (data : option SeismicData)
    (velocity_prop : option VelocityProperties) : PyResult unit :=
  match assertIsNotNone data with
  | Raise e => Raise e
  | Ok data =>
      match assertIsNotNone (velocity_properties data) with
      | Raise e => Raise e
      | Ok live =>
          match assertIsNotNone velocity_prop with
          | Raise e => Raise e
          | Ok expected => compare_attributes live expected dir
          end
      end
  end.

End SharedAssert.

(** * Properties *)

Unset Implicit Arguments.

(** ** The Python runtime *)

Module PyFacts.
Import Py.

Lemma Qgtb_true (a b : Q) : Qgtb a b = true <-> b < a.
Proof.
  unfold Qgtb. rewrite negb_true_iff, <- not_true_iff_false, Qle_bool_iff.
  split; [apply Qnot_le_lt | apply Qlt_not_le].
Qed.

Lemma Qgtb_false (a b : Q) : Qgtb a b = false <-> a <= b.
Proof.
  unfold Qgtb. rewrite negb_false_iff. apply Qle_bool_iff.
Qed.

Lemma Qeq_bool_refl (a : Q) : Qeq_bool a a = true.
Proof. apply Qeq_bool_iff. reflexivity. Qed.

Lemma opt_eqb_refl (x : option Q) : opt_eqb x x = true.
Proof.
  destruct x as [a|]; simpl; [apply Qeq_bool_refl | reflexivity].
Qed.

Lemma last_item_snoc {A : Type} (l : list A) (x : A) : last_item (l ++ [x]) = Ok x.
Proof.
  unfold last_item. rewrite rev_unit. reflexivity.
Qed.

Lemma last_item_Ok {A : Type} (l : list A) (x : A) :
  last_item l = Ok x -> exists l0, l = l0 ++ [x].
Proof.
  unfold last_item. destruct (rev l) as [|y r] eqn:E; intros H; inversion H; subst.
  exists (rev r). rewrite <- (rev_involutive l), E. reflexivity.
Qed.

Lemma last_item_nil {A : Type} (l : list A) (e : exn) :
  last_item l = Raise e -> l = [] /\ e = IndexError.
Proof.
  unfold last_item. destruct (rev l) as [|y r] eqn:E; intros H; inversion H.
  split; [|reflexivity].
  rewrite <- (rev_involutive l), E. reflexivity.
Qed.

End PyFacts.

(** ** The depth lookup *)

Module LookupFacts.
Import Py Shared OneDimensional PyFacts.
Local Open Scope Q_scope.

Lemma layer_eqb_refl (l : Layer) : layer_eqb l l = true.
Proof.
  unfold layer_eqb. now rewrite Qeq_bool_refl, !opt_eqb_refl.
Qed.

(** A layer at which the loop goes on: its top is not below the query. *)
Definition passes (depth : Q) (l : Layer) : Prop := Qgtb (l_depth l) depth = false.

(** [current_layer] after the loop has gone through all of [xs]. *)
Definition current_after (current_layer : option Layer) (xs : list Layer) : option Layer :=
  match rev xs with
  | x :: _ => Some x
  | [] => current_layer
  end.

Lemma current_after_cons (c : option Layer) (x : Layer) (xs : list Layer) :
  current_after c (x :: xs) = current_after (Some x) xs.
Proof.
  unfold current_after. simpl. destruct (rev xs) as [|y r]; reflexivity.
Qed.

Lemma current_after_snoc (c : option Layer) (xs : list Layer) (x : Layer) :
  current_after c (xs ++ [x]) = Some x.
Proof.
  unfold current_after. now rewrite rev_unit.
Qed.

(** The loop stops at the first layer that does not pass, or at the last
    one: either way [current_layer] is that layer and [previous_layer] the
    one before it. *)
Lemma scan_stops (depth : Q) (xs : list Layer) :
  Forall (passes depth) xs ->
  forall (p c : option Layer) (a : Layer) (ys : list Layer),
    ys = [] \/ Qgtb (l_depth a) depth = true ->
    scan depth p c (xs ++ a :: ys) = (current_after c xs, Some a).
Proof.
  induction 1 as [|x xs Hx _ IH]; intros p c a ys Hstop.
  - simpl. destruct Hstop as [-> | ->]; [destruct (Qgtb _ _)|]; reflexivity.
  - simpl. rewrite Hx, current_after_cons. now apply IH.
Qed.

(** A list either passes as a whole or splits at its first layer that
    does not. *)
Lemma first_stop (depth : Q) (ls : list Layer) :
  Forall (passes depth) ls \/
  exists xs a ys, ls = xs ++ a :: ys /\ Forall (passes depth) xs
                  /\ Qgtb (l_depth a) depth = true.
Proof.
  induction ls as [|l ls IH].
  - left. constructor.
  - destruct (Qgtb (l_depth l) depth) eqn:E.
    + right. exists [], l, ls. repeat split; [constructor | exact E].
    + destruct IH as [IH | (xs & a & ys & -> & Hxs & Ha)].
      * left. constructor; assumption.
      * right. exists (l :: xs), a, ys. repeat split; [constructor|]; assumption.
Qed.

(** Further copies of the last layer at the end of the list do not change
    where the loop stops. *)
Lemma scan_sentinels (depth : Q) (l0 : list Layer) (s : Layer) (k : nat) :
  scan depth None None ((l0 ++ [s]) ++ repeat s k ++ [s])
  = scan depth None None ((l0 ++ [s]) ++ [s]).
Proof.
  destruct (first_stop depth (l0 ++ [s])) as [Hall | (xs & a & ys & E & Hxs & Ha)].
  - rewrite (scan_stops depth _ Hall None None s [] (or_introl eq_refl)).
    rewrite app_assoc.
    rewrite scan_stops; [| | left; reflexivity].
    + f_equal. rewrite current_after_snoc.
      destruct k as [|k]; simpl.
      * now rewrite app_nil_r, current_after_snoc.
      * rewrite repeat_cons, app_assoc. apply current_after_snoc.
    + apply Forall_app. split; [exact Hall|].
      apply Forall_forall. intros x Hx. apply repeat_spec in Hx. subst x.
      apply Forall_app in Hall. destruct Hall as [_ Hs]. now inversion Hs.
  - rewrite E, <- !app_assoc. simpl.
    rewrite !(scan_stops depth _ Hxs) by (right; exact Ha). reflexivity.
Qed.

(** What the lookup returns once the loop has ended with
    [(previous_layer, current_layer)]. *)
Definition answer (depth : Q) (interpolate : bool) (name : string)
    (ended : option Layer * option Layer) : PyResult VelocityProperties :=
  fst (let '(previous_layer, current_layer) := ended in
       (if opt_layer_eqb previous_layer current_layer then
          bind (subscript current_layer (fun l => l)) (fun c =>
          Ok (mkVelocityProperties (l_vp c) (l_vs c) (l_density c) (l_qp c) (l_qs c)
                (Some name) (Some name) (Some name) (Some name) (Some name)))
        else if interpolate then
          bind (subscript previous_layer l_depth) (fun d0 =>
          bind (subscript current_layer l_depth) (fun d1 =>
          bind (truediv (depth - d0) (d1 - d0)) (fun percentage =>
          bind (subscript previous_layer (fun l => l)) (fun p =>
          bind (subscript current_layer (fun l => l)) (fun c =>
          bind (interpolate_field percentage (l_vp c) (l_vp p)) (fun f1 =>
          bind (interpolate_field percentage (l_vs c) (l_vs p)) (fun f2 =>
          bind (interpolate_field percentage (l_density c) (l_density p)) (fun f3 =>
          bind (interpolate_field percentage (l_qp c) (l_qp p)) (fun f4 =>
          bind (interpolate_field percentage (l_qs c) (l_qs p)) (fun f5 =>
          Ok (mkVelocityProperties f1 f2 f3 f4 f5
                (Some (interpolated name)) (Some (interpolated name))
                (Some (interpolated name)) (Some (interpolated name))
                (Some (interpolated name)))))))))))))
        else
          bind (subscript previous_layer (fun l => l)) (fun p =>
          Ok (mkVelocityProperties (l_vp p) (l_vs p) (l_density p) (l_qp p) (l_qs p)
                (Some name) (Some name) (Some name) (Some name) (Some name))),
        tt)).

(** The lookup on a list that has a last layer: the loop runs over the
    list extended by that layer, and the extended list is what it leaves. *)
Lemma lookup_unfold (depth : Q) (layers : list Layer) (s : Layer)
    (interpolate : bool) (name : string) :
  last_item layers = Ok s ->
  _get_velocity_data depth layers interpolate name
  = (answer depth interpolate name (scan depth None None (layers ++ [s])),
     layers ++ [s]).
Proof.
  intros H. unfold _get_velocity_data, answer. rewrite H.
  destruct (scan depth None None (layers ++ [s])) as [p c]. reflexivity.
Qed.

Lemma lookup_empty (depth : Q) (interpolate : bool) (name : string) :
  _get_velocity_data depth [] interpolate name = (Raise IndexError, []).
Proof. reflexivity. Qed.

(** The values of a layer, labelled [name]. *)
Definition properties_of (l : Layer) (name : string) : VelocityProperties :=
  mkVelocityProperties (l_vp l) (l_vs l) (l_density l) (l_qp l) (l_qs l)
    (Some name) (Some name) (Some name) (Some name) (Some name).

(** "Ordered by increasing depth-to-top": no layer lies above the one
    before it. *)
Definition increasing (layers : list Layer) : Prop :=
  Sorted (fun a b => l_depth a <= l_depth b) layers.

Lemma increasing_below_last (l0 : list Layer) (s : Layer) :
  increasing (l0 ++ [s]) -> Forall (fun l => l_depth l <= l_depth s) (l0 ++ [s]).
Proof.
  intros H. apply Sorted_StronglySorted in H.
  2:{ intros a b c Hab Hbc. eapply Qle_trans; eassumption. }
  induction l0 as [|x l0 IH]; simpl in *.
  - constructor; [apply Qle_refl | constructor].
  - inversion H as [|? ? Hs Hx]; subst. constructor.
    + apply Forall_app in Hx. destruct Hx as [_ Hx]. now inversion Hx.
    + now apply IH.
Qed.

(** Every query unit looked up in the same, unchanging list: each depth
    against the list as parsed. *)
Fixpoint query_each (data : list SeismicData) (layers : list Layer)
    (interpolate : bool) (name : string) : PyResult bool * list SeismicData :=
  match data with
  | [] => (Ok true, [])
  | d :: rest =>
      match fst (_get_velocity_data (z_value (converted_point d)) layers interpolate name) with
      | Raise e => (Raise e, d :: rest)
      | Ok properties =>
          let '(r, rest) := query_each rest layers interpolate name in
          (r, set_velocity_data d properties :: rest)
      end
  end.

Lemma repeat_snoc {A : Type} (x : A) (k : nat) : repeat x k ++ [x] = repeat x (S k).
Proof. symmetry. apply repeat_cons. Qed.

Lemma last_item_sentinels (layers : list Layer) (s : Layer) (k : nat) :
  last_item layers = Ok s -> last_item (layers ++ repeat s k) = Ok s.
Proof.
  intros H. destruct k as [|k].
  - simpl. now rewrite app_nil_r.
  - rewrite <- repeat_snoc, app_assoc. apply last_item_snoc.
Qed.

Lemma lookup_sentinels (depth : Q) (layers : list Layer) (s : Layer) (k : nat)
    (interpolate : bool) (name : string) :
  last_item layers = Ok s ->
  _get_velocity_data depth (layers ++ repeat s k) interpolate name
  = (fst (_get_velocity_data depth layers interpolate name),
     layers ++ repeat s (S k)).
Proof.
  intros H.
  rewrite (lookup_unfold _ _ s _ _ (last_item_sentinels _ _ k H)).
  rewrite (lookup_unfold _ _ s _ _ H). simpl fst.
  rewrite <- !app_assoc, repeat_snoc.
  destruct (last_item_Ok _ _ H) as [l0 ->].
  rewrite <- (repeat_snoc s k), scan_sentinels. reflexivity.
Qed.

Lemma query_points_sentinels (data : list SeismicData) (layers : list Layer) (s : Layer)
    (interpolate : bool) (name : string) :
  last_item layers = Ok s ->
  forall k, query_points data (layers ++ repeat s k) interpolate name
            = query_each data layers interpolate name.
Proof.
  intros H. induction data as [|d rest IH]; intros k; simpl.
  - reflexivity.
  - rewrite (lookup_sentinels _ _ _ k _ _ H).
    destruct (fst (_get_velocity_data _ layers interpolate name)); [|reflexivity].
    now rewrite IH.
Qed.

(** C5: on a non-empty list of layers ordered by increasing depth-to-top,
    a query at or below the top of the last layer returns the values of
    that layer as they are, labelled with the name of the profile, and
    the result is the same with and without interpolation. *)
Theorem lookup_beyond_last_layer (depth : Q) (layers : list Layer) (last : Layer)
    (name : string) :
  last_item layers = Ok last ->
  increasing layers ->
  l_depth last <= depth ->
  (forall interpolate,
     fst (_get_velocity_data depth layers interpolate name) = Ok (properties_of last name))
  /\ _get_velocity_data depth layers true name = _get_velocity_data depth layers false name.
Proof.
  intros Hlast Hinc Hdepth.
  assert (Hscan : scan depth None None (layers ++ [last]) = (Some last, Some last)).
  { destruct (last_item_Ok _ _ Hlast) as [l0 ->].
    rewrite (scan_stops depth (l0 ++ [last])); [| | left; reflexivity].
    - now rewrite current_after_snoc.
    - apply increasing_below_last in Hinc.
      eapply Forall_impl; [|exact Hinc]. intros l Hl. simpl in Hl.
      unfold passes. apply Qgtb_false.
      apply Qle_trans with (l_depth last); assumption. }
  assert (Hans : forall interpolate,
            answer depth interpolate name (Some last, Some last)
            = Ok (properties_of last name)).
  { intros interpolate. unfold answer. simpl. now rewrite layer_eqb_refl. }
  split.
  - intros interpolate. rewrite (lookup_unfold _ _ _ _ _ Hlast), Hscan. apply Hans.
  - rewrite !(lookup_unfold _ _ _ _ _ Hlast), Hscan, !Hans. reflexivity.
Qed.

(** C9: a lookup leaves the list one copy of its last layer longer; the
    copies that earlier lookups left do not change the result of a later
    one, whatever the depth and the interpolation; so a batch of query
    units, looked up one after the other in the list they share, gets
    what each unit gets from the list as parsed. *)
Theorem lookup_sentinels_are_harmless (depth : Q) (layers : list Layer) (last : Layer)
    (interpolate : bool) (name : string) :
  last_item layers = Ok last ->
  snd (_get_velocity_data depth layers interpolate name) = layers ++ [last]
  /\ (forall k,
        fst (_get_velocity_data depth (layers ++ repeat last k) interpolate name)
        = fst (_get_velocity_data depth layers interpolate name))
  /\ (forall data,
        query_points data layers interpolate name
        = query_each data layers interpolate name).
Proof.
  intros H. split; [|split].
  - now rewrite (lookup_unfold _ _ _ _ _ H).
  - intros k. now rewrite (lookup_sentinels _ _ _ k _ _ H).
  - intros data. rewrite <- (query_points_sentinels data _ _ _ _ H 0). simpl.
    now rewrite app_nil_r.
Qed.

(** *** Provenance *)

(** A value and its provenance are set together or absent together. *)
Definition paired {A B : Type} (field : option A) (source : option B) : Prop :=
  field = None <-> source = None.

Definition provenance_paired (r : VelocityProperties) : Prop :=
  paired (vp r) (vp_source r) /\ paired (vs r) (vs_source r)
  /\ paired (density r) (density_source r)
  /\ paired (qp r) (qp_source r) /\ paired (qs r) (qs_source r).

(** All five provenance strings are [label]. *)
Definition labelled (r : VelocityProperties) (label : string) : Prop :=
  vp_source r = Some label /\ vs_source r = Some label
  /\ density_source r = Some label
  /\ qp_source r = Some label /\ qs_source r = Some label.

(** A layer as the parsers build it: vp, vs and density are numbers. *)
Definition complete (l : Layer) : Prop :=
  l_vp l <> None /\ l_vs l <> None /\ l_density l <> None.

Definition holds (P : Layer -> Prop) (x : option Layer) : Prop :=
  match x with
  | Some l => P l
  | None => True
  end.

Lemma scan_holds (P : Layer -> Prop) (depth : Q) (ls : list Layer) :
  Forall P ls ->
  forall p c, holds P p -> holds P c ->
  holds P (fst (scan depth p c ls)) /\ holds P (snd (scan depth p c ls)).
Proof.
  induction 1 as [|l ls Hl _ IH]; intros p c Hp Hc; simpl.
  - split; assumption.
  - destruct (Qgtb (l_depth l) depth); simpl.
    + split; assumption.
    + apply IH; assumption.
Qed.

Lemma interpolate_field_Some (percentage : Q) (c p f : option Q) :
  p <> None -> interpolate_field percentage c p = Ok f -> f <> None.
Proof.
  unfold interpolate_field. destruct p as [p|]; [|congruence].
  destruct c as [c|]; intros _ H; inversion H. discriminate.
Qed.

Ltac bind_inv H :=
  repeat match type of H with
         | bind ?m _ = Ok _ =>
             let E := fresh "E" in destruct m eqn:E; simpl in H; [|discriminate H]
         end.

Lemma answer_Ok (depth : Q) (interpolate : bool) (name : string)
    (p c : option Layer) (r : VelocityProperties) :
  answer depth interpolate name (p, c) = Ok r ->
  (labelled r name \/ labelled r (interpolated name))
  /\ (holds complete p -> holds complete c ->
      vp r <> None /\ vs r <> None /\ density r <> None).
Proof.
  unfold answer. cbv beta iota. cbn [fst].
  destruct (opt_layer_eqb p c); [|destruct interpolate]; intros H; bind_inv H;
    inversion H; subst r; clear H.
  - split; [left; repeat split|]. intros _ Hc.
    destruct c as [c|]; [|discriminate]. inversion E; subst. exact Hc.
  - split; [right; repeat split|]. intros Hp Hc.
    destruct p as [p|]; [|discriminate]. destruct c as [c|]; [|discriminate].
    simpl in *. inversion E2; inversion E3; subst.
    destruct Hp as (P1 & P2 & P3). cbn [vp vs density].
    split; [|split].
    + exact (interpolate_field_Some _ _ _ _ P1 E4).
    + exact (interpolate_field_Some _ _ _ _ P2 E5).
    + exact (interpolate_field_Some _ _ _ _ P3 E6).
  - split; [left; repeat split|]. intros Hp _.
    destruct p as [p|]; [|discriminate]. inversion E; subst. exact Hp.
Qed.

Section ParsedLayers.

Variable is_number : string -> bool.
Variable calculate_scaled_density : Q -> Q.
Variable calculate_scaled_vs : Q -> Q -> Q.

Lemma bbp_layer_complete (current_depth : Q) (split_str : list string) (l : Layer) :
  bbp_layer calculate_scaled_density calculate_scaled_vs current_depth split_str = Ok l ->
  complete l.
Proof.
  unfold bbp_layer. intros H. bind_inv H. inversion H; subst l.
  repeat split; discriminate.
Qed.

Lemma bbp_lines_complete (lines : list string) :
  forall current_depth layers,
    Forall complete layers ->
    Forall complete
      (snd (bbp_lines is_number calculate_scaled_density calculate_scaled_vs
              current_depth lines layers)).
Proof.
  induction lines as [|line rest IH]; intros current_depth layers Hl; simpl.
  - exact Hl.
  - destruct (split line) as [|leading tokens] eqn:Es; [now apply IH|].
    destruct (is_number leading); [|now apply IH].
    destruct (bbp_layer _ _ _ _) as [layer|e] eqn:El; [|exact Hl].
    assert (Hl' : Forall complete (layers ++ [layer])).
    { apply Forall_app. split; [exact Hl|].
      constructor; [|constructor]. eapply bbp_layer_complete; eassumption. }
    destruct (py_float leading); [now apply IH | exact Hl'].
Qed.

Lemma scec_layers_complete (layer_dict : LayerDict) (numbers : list Z) :
  forall last_depth layers,
    Forall complete layers ->
    Forall complete
      (snd (scec_layers calculate_scaled_density calculate_scaled_vs layer_dict
              last_depth numbers layers)).
Proof.
  induction numbers as [|i rest IH]; intros last_depth layers Hl; simpl.
  - exact Hl.
  - destruct (dict_get layer_dict i) as [entry|e]; simpl; [|exact Hl].
    destruct (times_1000 (e_vp entry)) as [v|e]; simpl; [|exact Hl].
    apply IH. apply Forall_app. split; [exact Hl|].
    constructor; [|constructor]. repeat split; discriminate.
Qed.

(** A list of layers that one of the two parsers built from nothing. *)
Definition parsed (layers : list Layer) : Prop :=
  (exists text_info,
      _parse_bbp_model is_number calculate_scaled_density calculate_scaled_vs
        text_info [] = (Ok tt, layers))
  \/ (exists records,
      _parse_scec_model calculate_scaled_density calculate_scaled_vs
        records [] = (Ok tt, layers)).

Lemma parsed_complete (layers : list Layer) : parsed layers -> Forall complete layers.
Proof.
  intros [[text H] | [records H]].
  - change layers with (snd (Ok tt, layers)). rewrite <- H.
    apply bbp_lines_complete. constructor.
  - change layers with (snd (Ok tt, layers)). rewrite <- H.
    unfold _parse_scec_model. destruct (scec_collect records []); simpl.
    + apply scec_layers_complete. constructor.
    + constructor.
Qed.

(** C1, as the code has it: every result of the lookup on a parsed list
    carries all five provenance strings, each the name of the profile, or
    each that name with the suffix of an interpolation; vp, vs and density
    are numbers, so each of the three is set together with its provenance;
    qp and qs are only known to have a provenance. *)
Theorem lookup_provenance_is_set (depth : Q) (layers : list Layer) (interpolate : bool)
    (name : string) (r : VelocityProperties) :
  parsed layers ->
  fst (_get_velocity_data depth layers interpolate name) = Ok r ->
  (labelled r name \/ labelled r (interpolated name))
  /\ vp r <> None /\ vs r <> None /\ density r <> None
  /\ qp_source r <> None /\ qs_source r <> None.
Proof.
  intros Hp H. apply parsed_complete in Hp.
  destruct (last_item layers) as [s|e] eqn:El.
  2:{ unfold _get_velocity_data in H. rewrite El in H. discriminate H. }
  rewrite (lookup_unfold _ _ _ _ _ El) in H. simpl in H.
  assert (Hs : Forall complete (layers ++ [s])).
  { apply Forall_app. split; [exact Hp|].
    destruct (last_item_Ok _ _ El) as [l0 ->]. apply Forall_app in Hp.
    exact (proj2 Hp). }
  destruct (scan_holds complete depth _ Hs None None I I) as [H1 H2].
  destruct (scan depth None None (layers ++ [s])) as [p c].
  destruct (answer_Ok _ _ _ _ _ _ H) as [Hlab Hval].
  split; [exact Hlab|].
  destruct (Hval H1 H2) as (V1 & V2 & V3).
  repeat split; try assumption;
    destruct Hlab as [L | L]; destruct L as (_ & _ & _ & L4 & L5); congruence.
Qed.

End ParsedLayers.

(** The tokens that [float] reads: an [is_number]. *)
Definition reads_as_float (token : string) : bool :=
  match py_float token with
  | Ok _ => true
  | Raise _ => false
  end.

(** A line of four columns: thickness, vp, vs and density. *)
Definition four_columns : string := "1.00 5.00 2.89 2.70".

(** C1 fails as stated: the layer of a line of four columns has no qp,
    and the lookup labels it all the same. *)
Lemma provenance_set_without_value :
  ~ (forall (text_info : string) (depth : Q) (interpolate : bool) (name : string)
            (layers : list Layer) (r : VelocityProperties),
       _parse_bbp_model reads_as_float (fun _ => 0) (fun _ _ => 0) text_info []
       = (Ok tt, layers) ->
       fst (_get_velocity_data depth layers interpolate name) = Ok r ->
       provenance_paired r).
Proof.
  intros H.
  specialize (H four_columns 0 false "bbp"%string _ _ eq_refl eq_refl).
  destruct H as (_ & _ & _ & [Hqp _] & _).
  simpl in Hqp. specialize (Hqp eq_refl). discriminate Hqp.
Qed.

Lemma lookup_provenance_is_set_witness :
  exists r,
    fst (_get_velocity_data 0
           (snd (_parse_bbp_model reads_as_float (fun _ => 0) (fun _ _ => 0)
                   four_columns []))
           true "bbp") = Ok r
    /\ labelled r "bbp" /\ vp r <> None /\ qp r = None /\ qp_source r <> None.
Proof.
  eexists. split; [reflexivity|].
  destruct (lookup_provenance_is_set reads_as_float (fun _ => 0) (fun _ _ => 0)
              0 _ true "bbp" _
              (or_introl (ex_intro _ four_columns eq_refl)) eq_refl)
    as (_ & V & _ & _ & S & _).
  split; [repeat split|]. split; [exact V|]. split; [reflexivity | exact S].
Defined.

(** *** Interpolation between two layers *)

(** Interpolation needs, of the deeper layer, every value the shallower
    one has. *)
Definition interpolable (previous current : Layer) : Prop :=
  (l_vp previous <> None -> l_vp current <> None)
  /\ (l_vs previous <> None -> l_vs current <> None)
  /\ (l_density previous <> None -> l_density current <> None)
  /\ (l_qp previous <> None -> l_qp current <> None)
  /\ (l_qs previous <> None -> l_qs current <> None).

Lemma interpolate_field_defined (percentage : Q) (c p : option Q) :
  (p <> None -> c <> None) -> exists f, interpolate_field percentage c p = Ok f.
Proof.
  intros H. destruct p as [p|]; simpl; [|eauto].
  destruct c as [c|]; [eauto|]. exfalso. apply H; [discriminate | reflexivity].
Qed.

Lemma length_append (a b : string) :
  String.length (a ++ b) = (String.length a + String.length b)%nat.
Proof.
  induction a as [|c a IH]; simpl; [reflexivity | now rewrite IH].
Qed.

Lemma interpolated_differs (name : string) : interpolated name <> name.
Proof.
  unfold interpolated. intros H. apply (f_equal String.length) in H.
  rewrite length_append in H. simpl in H. lia.
Qed.

(** C4: between a layer at depth 0 with vp 1000 and a layer at depth 1000
    with vp 2000, the query at depth 500 returns vp 1500 and the name with
    the suffix of an interpolation in all five provenance strings when it
    interpolates, and the vp 1000 of the shallower layer under the bare
    name when it does not. *)
Theorem lookup_halfway (vs0 density0 qp0 qs0 vs1 density1 qp1 qs1 : option Q)
    (name : string) :
  let shallow := mkLayer 0 (Some 1000) vs0 density0 qp0 qs0 in
  let deep := mkLayer 1000 (Some 2000) vs1 density1 qp1 qs1 in
  interpolable shallow deep ->
  (exists r v,
      fst (_get_velocity_data 500 [shallow; deep] true name) = Ok r
      /\ vp r = Some v /\ v == 1500 /\ labelled r (interpolated name))
  /\ fst (_get_velocity_data 500 [shallow; deep] false name)
     = Ok (properties_of shallow name)
  /\ vp (properties_of shallow name) = Some 1000
  /\ ~ labelled (properties_of shallow name) (interpolated name).
Proof.
  intros shallow deep (_ & H2 & H3 & H4 & H5).
  assert (Hscan : scan 500 None None ([shallow; deep] ++ [deep])
                  = (Some shallow, Some deep)) by reflexivity.
  split; [|split; [|split]].
  - rewrite (lookup_unfold 500 [shallow; deep] deep true name eq_refl), Hscan.
    unfold answer. cbv beta iota. cbn [fst].
    change (opt_layer_eqb (Some shallow) (Some deep)) with false. cbv iota.
    cbn [subscript bind l_depth l_vp l_vs l_density l_qp l_qs shallow deep].
    change (truediv (500 - 0) (1000 - 0)) with (Ok ((500 - 0) / (1000 - 0))).
    cbn [bind interpolate_field].
    set (percentage := (500 - 0) / (1000 - 0)).
    destruct (interpolate_field_defined percentage vs1 vs0 H2) as [f2 ->].
    destruct (interpolate_field_defined percentage density1 density0 H3) as [f3 ->].
    destruct (interpolate_field_defined percentage qp1 qp0 H4) as [f4 ->].
    destruct (interpolate_field_defined percentage qs1 qs0 H5) as [f5 ->].
    cbn [bind]. eexists. eexists. split; [reflexivity|].
    split; [reflexivity|]. split; [reflexivity | repeat split].
  - rewrite (lookup_unfold 500 [shallow; deep] deep false name eq_refl), Hscan.
    reflexivity.
  - reflexivity.
  - intros (L & _). simpl in L. inversion L as [E].
    symmetry in E. exact (interpolated_differs name E).
Qed.

(** *** The theorems at a profile of two layers *)

Definition shallow_layer : Layer :=
  mkLayer 0 (Some 1000) (Some 500) (Some 2000) None None.

Definition deep_layer : Layer :=
  mkLayer 1000 (Some 2000) (Some 1000) (Some 2500) None None.

Lemma lookup_halfway_witness :
  (exists r v,
      fst (_get_velocity_data 500 [shallow_layer; deep_layer] true "two layers") = Ok r
      /\ vp r = Some v /\ v == 1500 /\ labelled r (interpolated "two layers"))
  /\ fst (_get_velocity_data 500 [shallow_layer; deep_layer] false "two layers")
     = Ok (properties_of shallow_layer "two layers")
  /\ vp (properties_of shallow_layer "two layers") = Some 1000
  /\ ~ labelled (properties_of shallow_layer "two layers") (interpolated "two layers").
Proof.
  apply (lookup_halfway (Some 500) (Some 2000) None None
           (Some 1000) (Some 2500) None None "two layers").
  repeat split; intros H; (exact H || discriminate).
Defined.

Lemma lookup_beyond_last_layer_witness :
  (forall interpolate,
     fst (_get_velocity_data 1500 [shallow_layer; deep_layer] interpolate "two layers")
     = Ok (properties_of deep_layer "two layers"))
  /\ _get_velocity_data 1500 [shallow_layer; deep_layer] true "two layers"
     = _get_velocity_data 1500 [shallow_layer; deep_layer] false "two layers".
Proof.
  apply (lookup_beyond_last_layer 1500 [shallow_layer; deep_layer] deep_layer "two layers").
  - reflexivity.
  - repeat constructor. simpl. unfold Qle. simpl. lia.
  - simpl. unfold Qle. simpl. lia.
Defined.

Lemma lookup_sentinels_are_harmless_witness :
  snd (_get_velocity_data 500 [shallow_layer; deep_layer] true "two layers")
  = [shallow_layer; deep_layer; deep_layer]
  /\ (forall k,
        fst (_get_velocity_data 500 ([shallow_layer; deep_layer] ++ repeat deep_layer k)
               true "two layers")
        = fst (_get_velocity_data 500 [shallow_layer; deep_layer] true "two layers"))
  /\ (forall data,
        query_points data [shallow_layer; deep_layer] true "two layers"
        = query_each data [shallow_layer; deep_layer] true "two layers").
Proof.
  apply (lookup_sentinels_are_harmless 500 [shallow_layer; deep_layer] deep_layer
           true "two layers").
  reflexivity.
Defined.

End LookupFacts.

(** ** The BBP format *)

Module ParsingFacts.
Import Py Shared OneDimensional PyFacts LookupFacts.
Local Open Scope Q_scope.


Section Bbp.

Variable is_number : string -> bool.
Variable calculate_scaled_density : Q -> Q.
Variable calculate_scaled_vs : Q -> Q -> Q.




Lemma bbp_layer_depth (current_depth : Q) (split_str : list string) (l : Layer) :
  bbp_layer calculate_scaled_density calculate_scaled_vs current_depth split_str = Ok l ->
  l_depth l = current_depth.
Proof.
  unfold bbp_layer. intros H. bind_inv H. now inversion H.
Qed.



End Bbp.


(** Two lines of a profile, as a text: the second layer starts where the
    first, one kilometre thick, ends. *)
Definition two_lines : string :=
  four_columns ++ String (ascii_of_nat 10) "2.00 6.00 3.50 2.80".

Example bbp_two_lines :
  Forall2 Qeq
    (map l_depth
       (snd (_parse_bbp_model reads_as_float (fun _ => 0) (fun _ _ => 0) two_lines [])))
    [0; 1000].
Proof.
  repeat (constructor; [reflexivity|]). constructor.
Qed.

End ParsingFacts.

(** ** The query *)

Module QueryFacts.
Import Py Shared OneDimensional PyFacts LookupFacts.
Local Open Scope string_scope.
Local Open Scope list_scope.

(** An exception of Python itself, or of a library: anything but a
    failure of the error catalog. *)
Definition builtin (e : exn) : Prop :=
  match e with
  | UCVMError _ _ => False
  | _ => True
  end.

Create HintDb raises.

Lemma item_builtin {A : Type} (l : list A) (i : nat) (e : exn) :
  item l i = Raise e -> builtin e.
Proof.
  unfold item. destruct (nth_error l i); intros H; inversion H. exact I.
Qed.

Lemma py_float_builtin (s : string) (e : exn) : py_float s = Raise e -> builtin e.
Proof.
  unfold py_float. destruct (signed _) as [sg body].
  destruct (cut_at _ _ body) as [[m x]|]; destruct (mantissa _) as [[n k]|];
    try destruct (exponent_part _); intros H; inversion H; exact I.
Qed.

Lemma py_int_builtin (s : string) (e : exn) : py_int s = Raise e -> builtin e.
Proof.
  unfold py_int. destruct (signed _) as [sg body].
  destruct (digits body); intros H; inversion H. exact I.
Qed.

Lemma xml_get_builtin (layer : XmlLayer) (key : string) (e : exn) :
  xml_get layer key = Raise e -> builtin e.
Proof.
  induction layer as [|[k v] rest IH]; simpl.
  - intros H; inversion H. exact I.
  - destruct (String.eqb k key); [discriminate | exact IH].
Qed.

Lemma dict_get_builtin (layer_dict : LayerDict) (i : Z) (e : exn) :
  dict_get layer_dict i = Raise e -> builtin e.
Proof.
  induction layer_dict as [|[k v] rest IH]; simpl.
  - intros H; inversion H. exact I.
  - destruct (Z.eqb k i); [discriminate | exact IH].
Qed.

Lemma times_1000_builtin (x : option Q) (e : exn) : times_1000 x = Raise e -> builtin e.
Proof.
  destruct x; intros H; inversion H. exact I.
Qed.

Lemma subscript_builtin {A : Type} (x : option Layer) (f : Layer -> A) (e : exn) :
  subscript x f = Raise e -> builtin e.
Proof.
  destruct x; intros H; inversion H. exact I.
Qed.

Lemma interpolate_field_builtin (percentage : Q) (c p : option Q) (e : exn) :
  interpolate_field percentage c p = Raise e -> builtin e.
Proof.
  destruct p, c; intros H; inversion H. exact I.
Qed.

Lemma truediv_builtin (a b : Q) (e : exn) : truediv a b = Raise e -> builtin e.
Proof.
  unfold truediv. destruct (Qeq_bool b 0); intros H; inversion H. exact I.
Qed.

#[local] Hint Resolve item_builtin py_float_builtin py_int_builtin xml_get_builtin
  dict_get_builtin times_1000_builtin subscript_builtin interpolate_field_builtin
  truediv_builtin : raises.

(** Splits [bind m k = Raise e] into the case where [m] raises, closed by
    the hints, and the case where [k] does. *)
Ltac raise_inv H :=
  repeat match type of H with
         | bind ?m _ = Raise _ =>
             let E := fresh "E" in
             destruct m eqn:E; simpl in H;
             [| inversion H; subst; eauto with raises]
         | (if ?b then _ else _) = Raise _ => destruct b
         | Ok _ = Raise _ => discriminate H
         end.

Lemma scaled_column_builtin (split_str : list string) (i : nat) (otherwise : Q) (e : exn) :
  scaled_column split_str i otherwise = Raise e -> builtin e.
Proof.
  unfold scaled_column. intros H. raise_inv H.
Qed.

Lemma optional_column_builtin (split_str : list string) (i : nat) (e : exn) :
  optional_column split_str i = Raise e -> builtin e.
Proof.
  unfold optional_column. intros H. raise_inv H.
Qed.

Lemma xml_optional_builtin (layer : XmlLayer) (key : string) (e : exn) :
  xml_optional layer key = Raise e -> builtin e.
Proof.
  unfold xml_optional. intros H. raise_inv H.
Qed.

#[local] Hint Resolve scaled_column_builtin optional_column_builtin
  xml_optional_builtin : raises.

Section Builtin.

Variable is_number : string -> bool.
Variable calculate_scaled_density : Q -> Q.
Variable calculate_scaled_vs : Q -> Q -> Q.

Lemma bbp_layer_builtin (current_depth : Q) (split_str : list string) (e : exn) :
  bbp_layer calculate_scaled_density calculate_scaled_vs current_depth split_str
  = Raise e -> builtin e.
Proof.
  unfold bbp_layer. intros H. raise_inv H.
Qed.

Lemma bbp_lines_builtin (lines : list string) :
  forall current_depth layers e,
    fst (bbp_lines is_number calculate_scaled_density calculate_scaled_vs
           current_depth lines layers) = Raise e -> builtin e.
Proof.
  induction lines as [|line rest IH]; intros current_depth layers e; simpl.
  - discriminate.
  - destruct (split line) as [|leading tokens]; [apply IH|].
    destruct (is_number leading); [|apply IH].
    destruct (bbp_layer _ _ _ _) as [layer|e0] eqn:El; simpl.
    + destruct (py_float leading) as [t|e1] eqn:Ef; [apply IH|].
      simpl. intros H; inversion H; subst. eauto with raises.
    + intros H; inversion H; subst. eapply bbp_layer_builtin; eassumption.
Qed.

Lemma scec_collect_builtin (records : list XmlLayer) :
  forall layer_dict e, scec_collect records layer_dict = Raise e -> builtin e.
Proof.
  induction records as [|layer rest IH]; intros layer_dict e; simpl.
  - discriminate.
  - intros H. raise_inv H. eapply IH; eassumption.
Qed.

Lemma scec_layers_builtin (layer_dict : LayerDict) (numbers : list Z) :
  forall last_depth layers e,
    fst (scec_layers calculate_scaled_density calculate_scaled_vs layer_dict
           last_depth numbers layers) = Raise e -> builtin e.
Proof.
  induction numbers as [|i rest IH]; intros last_depth layers e; simpl.
  - discriminate.
  - destruct (dict_get layer_dict i) as [entry|e0] eqn:Ed; simpl.
    + destruct (times_1000 (e_vp entry)) as [v|e1] eqn:Et; simpl; [apply IH|].
      intros H; inversion H; subst. eauto with raises.
    + intros H; inversion H; subst. eauto with raises.
Qed.

Lemma lookup_builtin (depth : Q) (layers : list Layer) (interpolate : bool)
    (name : string) (e : exn) :
  fst (_get_velocity_data depth layers interpolate name) = Raise e -> builtin e.
Proof.
  destruct (last_item layers) as [s|e0] eqn:El.
  - rewrite (lookup_unfold _ _ _ _ _ El). simpl.
    destruct (scan depth None None (layers ++ [s])) as [p c].
    unfold answer. cbv beta iota. cbn [fst]. intros H. raise_inv H.
  - unfold _get_velocity_data. rewrite El. simpl. intros H; inversion H; subst.
    apply last_item_nil in El. destruct El as [_ ->]. exact I.
Qed.

Lemma query_points_builtin (data : list SeismicData) :
  forall layers interpolate name e,
    fst (query_points data layers interpolate name) = Raise e -> builtin e.
Proof.
  induction data as [|d rest IH]; intros layers interpolate name e; simpl.
  - discriminate.
  - destruct (_get_velocity_data _ layers interpolate name) as [[v|e0] layers'] eqn:El.
    + specialize (IH layers' interpolate name e).
      destruct (query_points rest layers' interpolate name) as [r rest']. exact IH.
    + simpl. intros H; inversion H; subst.
      apply (lookup_builtin (z_value (converted_point d)) layers interpolate name).
      now rewrite El.
Qed.

End Builtin.

Section Resolution.

Variable is_number : string -> bool.
Variable calculate_scaled_density : Q -> Q.
Variable calculate_scaled_vs : Q -> Q -> Q.
Variable model_location : string.
Variable path_exists : string -> bool.
Variable read_profile : string -> option Profile.

(** The file of a profile in the current working directory, and in the
    packaged data directory of the model. *)
Definition cwd_file (profile : string) : string := path_join "." (profile ++ ".mdl").

Definition data_file (profile : string) : string :=
  path_join (path_join model_location "data") (profile ++ ".mdl").

(** The profile that a [params] option names: the option itself, or, when
    it holds several tokens between commas, the tokens trimmed and in
    lower case, without the first [linear] or else the first [none], and
    joined by commas again. *)
Definition named_profile (params : string) : string :=
  let tokens := map (fun x => lower (strip x)) (split_on "," params) in
  if (1 <? List.length tokens)%nat then
    join ","
      (if contains tokens "linear" then remove "linear" tokens
       else if contains tokens "none" then remove "none" tokens
       else tokens)
  else params.

(** The list [paths] of [_query], and the file it settles on. *)
Definition paths_of (params : option string) : list string :=
  snd (select_profile model_location params).

Definition located (params : option string) : option string :=
  first_existing path_exists (paths_of params).

(** What [_query] does once [xml_file] is known. *)
Definition query_file (xml_file : string) (forced : option string)
    (data : list SeismicData) : PyResult bool * list SeismicData :=
  match read_profile xml_file with
  | None => (Raise ExternalError, data)
  | Some model_1d =>
      let name := lower (strip (p_name model_1d)) in
      let format := lower (strip (p_format model_1d)) in
      let interpolation :=
        match forced with
        | None => lower (strip (p_interpolation model_1d))
        | Some forced => forced
        end in
      match parse_layers is_number calculate_scaled_density calculate_scaled_vs
              model_1d format with
      | (Raise e, _) => (Raise e, data)
      | (Ok _, layers) =>
          query_points data layers (String.eqb interpolation "linear") name
      end
  end.

Lemma query_unfold (data : list SeismicData) (params : option string) :
  _query is_number calculate_scaled_density calculate_scaled_vs model_location
    path_exists read_profile data params
  = match located params with
    | None =>
        (Raise (UCVMError 13 [snd (fst (select_profile model_location params))]), data)
    | Some xml_file =>
        query_file xml_file (fst (fst (select_profile model_location params))) data
    end.
Proof.
  unfold _query, located, paths_of, query_file.
  destruct (select_profile model_location params) as [[forced shown] paths]. reflexivity.
Qed.

Lemma paths_of_params (params : string) :
  paths_of (Some params)
  = [cwd_file (named_profile params); data_file (named_profile params)].
Proof.
  unfold paths_of, select_profile, named_profile, cwd_file, data_file.
  destruct (1 <? _)%nat; [|reflexivity].
  destruct (contains _ "linear"); [reflexivity|].
  destruct (contains _ "none"); reflexivity.
Qed.

Lemma first_existing_None (paths : list string) :
  first_existing path_exists paths = None
  <-> Forall (fun path => path_exists path = false) paths.
Proof.
  induction paths as [|path rest IH]; simpl.
  - split; [constructor | reflexivity].
  - destruct (path_exists path) eqn:E.
    + split; [discriminate | intros H; inversion H; congruence].
    + rewrite IH. split; [now constructor | intros H; now inversion H].
Qed.

Lemma first_existing_Some (paths : list string) (xml_file : string) :
  first_existing path_exists paths = Some xml_file ->
  exists before after,
    paths = before ++ xml_file :: after
    /\ Forall (fun path => path_exists path = false) before
    /\ path_exists xml_file = true.
Proof.
  induction paths as [|path rest IH]; simpl; [discriminate|].
  destruct (path_exists path) eqn:E.
  - intros H; inversion H; subst. exists [], rest. repeat split; [constructor | exact E].
  - intros H. destruct (IH H) as (before & after & -> & Hb & Hx).
    exists (path :: before), after. repeat split; [constructor|]; assumption.
Qed.

Lemma query_file_builtin (xml_file : string) (forced : option string)
    (data : list SeismicData) (e : exn) :
  fst (query_file xml_file forced data) = Raise e -> builtin e.
Proof.
  unfold query_file. destruct (read_profile xml_file) as [model_1d|].
  2:{ simpl. intros H; inversion H. exact I. }
  cbv zeta.
  destruct (parse_layers _ _ _ model_1d _) as [[u|e0] layers] eqn:Ep.
  - apply query_points_builtin.
  - simpl. intros H; inversion H; subst.
    unfold parse_layers in Ep. destruct (String.eqb _ "bbp").
    + apply (bbp_lines_builtin is_number calculate_scaled_density calculate_scaled_vs
               (splitlines (p_text model_1d)) 0 []).
      unfold _parse_bbp_model in Ep. now rewrite Ep.
    + destruct (p_records model_1d) as [records|].
      * unfold _parse_scec_model in Ep.
        destruct (scec_collect records []) as [layer_dict|e1] eqn:Ec.
        -- apply (scec_layers_builtin calculate_scaled_density calculate_scaled_vs
                    layer_dict (range_from_1 (List.length layer_dict)) 0 []).
           now rewrite Ep.
        -- inversion Ep; subst. eapply scec_collect_builtin; eassumption.
      * inversion Ep. exact I.
Qed.

(** C7, as the code has it: with a [params] option, the file of the
    profile it names is looked for in the current working directory
    first and in the packaged data directory of the model next; without
    one, the profile is "SCEC 1D" and its file is looked for in the
    packaged data directory only. *)
Theorem profile_file_resolution (params : string) :
  located (Some params)
  = (if path_exists (cwd_file (named_profile params))
     then Some (cwd_file (named_profile params))
     else if path_exists (data_file (named_profile params))
          then Some (data_file (named_profile params))
          else None)
  /\ located None
     = (if path_exists (data_file "SCEC 1D") then Some (data_file "SCEC 1D") else None)
  /\ snd (fst (select_profile model_location None)) = "SCEC 1D".
Proof.
  unfold located. rewrite paths_of_params. repeat split.
Qed.

(** C8: the query raises the error 13 of the catalog exactly when none
    of the files it looks for exists; when one exists, the first of them
    in the order of the list is the file it reads, and whatever it
    raises then is no error of the catalog. *)
Theorem query_error_13 (data : list SeismicData) (params : option string) :
  ((exists args,
       fst (_query is_number calculate_scaled_density calculate_scaled_vs
              model_location path_exists read_profile data params)
       = Raise (UCVMError 13 args))
   <-> Forall (fun path => path_exists path = false) (paths_of params))
  /\ (forall xml_file,
        located params = Some xml_file ->
        (exists before after,
            paths_of params = before ++ xml_file :: after
            /\ Forall (fun path => path_exists path = false) before
            /\ path_exists xml_file = true)
        /\ _query is_number calculate_scaled_density calculate_scaled_vs
             model_location path_exists read_profile data params
           = query_file xml_file (fst (fst (select_profile model_location params))) data
        /\ (forall e,
              fst (_query is_number calculate_scaled_density calculate_scaled_vs
                     model_location path_exists read_profile data params) = Raise e ->
              builtin e)).
Proof.
  rewrite query_unfold. split.
  - rewrite <- first_existing_None. fold (located params).
    destruct (located params) as [xml_file|]; simpl.
    + split; [|discriminate]. intros [args H].
      apply query_file_builtin in H. destruct H.
    + split; [reflexivity | eauto].
  - intros xml_file H. rewrite H. split; [|split].
    + apply first_existing_Some. exact H.
    + reflexivity.
    + apply query_file_builtin.
Qed.

End Resolution.

(** *** The theorems on a small installation *)

Definition installed_at : string := "/opt/ucvm/models/1d".

(** A profile in the BBP format with the one line of four columns. *)
Definition bbp_profile : Profile :=
  mkProfile "Four Columns" "bbp" "linear" four_columns None.

Definition read_bbp_profile (path : string) : option Profile := Some bbp_profile.

(** A file system whose only file is the packaged default profile. *)
Definition only_packaged (path : string) : bool :=
  String.eqb path "/opt/ucvm/models/1d/data/SCEC 1D.mdl".

(** A file system whose only file is a default profile in the current
    working directory. *)
Definition only_in_cwd (path : string) : bool := String.eqb path "./SCEC 1D.mdl".

Definition at_surface : SeismicData :=
  mkSeismicData (mkPoint (-118) 34 0) (mkPoint (-118) 34 0) None.

(** C7 fails as stated: without a [params] option the current working
    directory is not looked at, so a default profile that lies there, and
    only there, is not found. *)
Lemma default_profile_not_sought_in_cwd :
  ~ (forall (model_location : string) (path_exists : string -> bool),
       located model_location path_exists None
       = first_existing path_exists
           [cwd_file "SCEC 1D"; data_file model_location "SCEC 1D"]).
Proof.
  intros H. specialize (H installed_at only_in_cwd). discriminate H.
Qed.

Lemma query_error_13_witness :
  (exists args,
      fst (_query reads_as_float (fun _ => 0%Q) (fun _ _ => 0%Q) installed_at
             only_in_cwd read_bbp_profile [at_surface] None)
      = Raise (UCVMError 13 args))
  /\ (forall e,
        fst (_query reads_as_float (fun _ => 0%Q) (fun _ _ => 0%Q) installed_at
               only_packaged read_bbp_profile [at_surface] None) = Raise e ->
        builtin e).
Proof.
  split.
  - apply (proj1 (query_error_13 reads_as_float (fun _ => 0%Q) (fun _ _ => 0%Q)
                    installed_at only_in_cwd read_bbp_profile [at_surface] None)).
    repeat constructor.
  - apply (proj2 (query_error_13 reads_as_float (fun _ => 0%Q) (fun _ _ => 0%Q)
                    installed_at only_packaged read_bbp_profile [at_surface] None)
             "/opt/ucvm/models/1d/data/SCEC 1D.mdl" eq_refl).
Defined.

(** The query on that installation answers, from the packaged profile. *)
Example query_packaged_default :
  fst (_query reads_as_float (fun _ => 0%Q) (fun _ _ => 0%Q) installed_at
         only_packaged read_bbp_profile [at_surface] None) = Ok true.
Proof. reflexivity. Qed.

End QueryFacts.

(** ** The human-readable size *)

Module SetupFacts.
Import Py Setup PyFacts.
Local Open Scope string_scope.
Local Open Scope Q_scope.

(** A number that is not negative rounds to zero exactly when it is one
    half at most. *)
Lemma round_half_even_zero (x : Q) :
  0 <= x -> (round_half_even x = 0%Z <-> x <= 1 # 2).
Proof.
  intros Hx. unfold round_half_even.
  assert (Hf : (0 <= Qfloor x)%Z).
  { rewrite <- (Qfloor_Z 0). apply Qfloor_resp_le. exact Hx. }
  pose proof (Qfloor_le x) as Hl.
  destruct (Z.eq_dec (Qfloor x) 0) as [H0|H0].
  - rewrite H0 in *. change (inject_Z 0) with 0 in *. simpl Z.even. cbv iota.
    destruct (Qcompare (x - 0) (1 # 2)) eqn:E;
      [apply Qeq_alt in E | apply Qlt_alt in E | apply Qgt_alt in E];
      (split; [intros H; try discriminate H; lra | intros H; try reflexivity; lra]).
  - assert (H1 : (1 <= Qfloor x)%Z) by lia.
    assert (H1q : 1 <= inject_Z (Qfloor x)) by (now rewrite <- (Zle_Qle 1)).
    split.
    + intros H. exfalso.
      destruct (Qcompare _ _); [destruct (Z.even _)| |]; lia.
    + intros H. exfalso. lra.
Qed.

(** The integer part of the exact logarithm to the base 1024: one
    function that [int_log_1024] can be. *)
Definition exact_log_1024 (num : Q) : nat := Z.to_nat (Z.log2 (Qfloor num) / 10).

Lemma exact_log_1024_spec (num : Q) :
  1 <= num ->
  inject_Z (1024 ^ Z.of_nat (exact_log_1024 num)) <= num
  /\ num < inject_Z (1024 ^ (Z.of_nat (exact_log_1024 num) + 1)).
Proof.
  intros H1. unfold exact_log_1024.
  assert (Hn : (1 <= Qfloor num)%Z).
  { rewrite <- (Qfloor_Z 1). apply Qfloor_resp_le. exact H1. }
  set (n := Qfloor num) in *.
  destruct (Z.log2_spec n ltac:(lia)) as [Hlo Hhi].
  pose proof (Z.log2_nonneg n) as Hl0.
  set (L := Z.log2 n) in *.
  assert (He0 : (0 <= L / 10)%Z) by (apply Z.div_pos; lia).
  rewrite Z2Nat.id by exact He0.
  assert (Hd : (10 * (L / 10) <= L < 10 * (L / 10) + 10)%Z).
  { pose proof (Z.div_mod L 10 ltac:(lia)). pose proof (Z.mod_pos_bound L 10 ltac:(lia)).
    lia. }
  assert (Hp : forall e, (0 <= e)%Z -> (1024 ^ e = 2 ^ (10 * e))%Z).
  { intros e He. rewrite Z.pow_mul_r by lia. reflexivity. }
  split.
  - apply Qle_trans with (inject_Z n); [|apply Qfloor_le].
    rewrite <- Zle_Qle, Hp by lia.
    apply Z.le_trans with (2 ^ L)%Z; [|exact Hlo].
    apply Z.pow_le_mono_r; lia.
  - apply Qlt_le_trans with (inject_Z (n + 1)); [apply Qlt_floor|].
    rewrite <- Zle_Qle, Hp by lia.
    assert (2 ^ (L + 1) <= 2 ^ (10 * (L / 10 + 1)))%Z by (apply Z.pow_le_mono_r; lia).
    lia.
Qed.

(** The label and the number of decimals of the unit with exponent [e]. *)
Definition label (e : nat) : string := fst (nth e unit_list ("", 0%nat)).
Definition decimals (e : nat) : nat := snd (nth e unit_list ("", 0%nat)).

(** The unit of a size above 1: the one numbered by the integer part of
    the logarithm, or the last one. *)
Definition unit_of (int_log_1024 : Q -> nat) (num : Q) : nat :=
  Nat.min (int_log_1024 num) 5.

Section Logarithm.

Variable int_log_1024 : Q -> nat.

(** A size above 1 is divided by the power of 1024 of its unit and
    printed with the decimals and the label of that unit. *)
Lemma sizeof_fmt_above_1 (num : Q) :
  1 < num ->
  sizeof_fmt int_log_1024 num
  = Some (format_f (decimals (unit_of int_log_1024 num))
            (num / inject_Z (1024 ^ Z.of_nat (unit_of int_log_1024 num)))
          ++ " " ++ label (unit_of int_log_1024 num)).
Proof.
  intros H. unfold sizeof_fmt. apply Qgtb_true in H. rewrite H.
  change (List.length unit_list - 1)%nat with 5%nat. fold (unit_of int_log_1024 num).
  unfold label, decimals.
  destruct (nth (unit_of int_log_1024 num) unit_list ("", 0%nat)) as [unit num_decimals].
  reflexivity.
Qed.

(** C3, as the code has it: 0 gives "0 bytes" and 1 gives "1 byte"; where
    the integer part of the logarithm to the base 1024 is 1 at 1024, 2 at
    1048576 and 3 at 1073741824, as the floating-point logarithm has it,
    1024 gives "1 kB", 1048576 gives "1.0 MB" and 1073741824 gives
    "1.00 GB"; the units are bytes, kB, MB, GB, TB and PB with 0, 0, 1,
    2, 2 and 2 decimals; and a size above 1 is divided by the power of
    1024 whose exponent is the integer part of its logarithm, or 5 when
    that is more, and printed with the decimals and the label of the
    unit of that exponent. *)
Theorem sizeof_fmt_table :
  int_log_1024 1024 = 1%nat ->
  int_log_1024 1048576 = 2%nat ->
  int_log_1024 1073741824 = 3%nat ->
  sizeof_fmt int_log_1024 0 = Some "0 bytes"
  /\ sizeof_fmt int_log_1024 1 = Some "1 byte"
  /\ sizeof_fmt int_log_1024 1024 = Some "1 kB"
  /\ sizeof_fmt int_log_1024 1048576 = Some "1.0 MB"
  /\ sizeof_fmt int_log_1024 1073741824 = Some "1.00 GB"
  /\ map label (seq 0 6) = ["bytes"; "kB"; "MB"; "GB"; "TB"; "PB"]
  /\ map decimals (seq 0 6) = [0; 0; 1; 2; 2; 2]%nat
  /\ (forall num,
        1 < num ->
        (unit_of int_log_1024 num <= 5)%nat
        /\ sizeof_fmt int_log_1024 num
           = Some (format_f (decimals (unit_of int_log_1024 num))
                     (num / inject_Z (1024 ^ Z.of_nat (unit_of int_log_1024 num)))
                   ++ " " ++ label (unit_of int_log_1024 num))).
Proof.
  intros H1 H2 H3.
  split; [reflexivity|]. split; [reflexivity|].
  split; [rewrite sizeof_fmt_above_1 by reflexivity; unfold unit_of; rewrite H1;
          vm_compute; reflexivity|].
  split; [rewrite sizeof_fmt_above_1 by reflexivity; unfold unit_of; rewrite H2;
          vm_compute; reflexivity|].
  split; [rewrite sizeof_fmt_above_1 by reflexivity; unfold unit_of; rewrite H3;
          vm_compute; reflexivity|].
  split; [reflexivity|]. split; [reflexivity|].
  intros num H. split; [unfold unit_of; lia | now apply sizeof_fmt_above_1].
Qed.

(** C10: [sizeof_fmt] returns a string for 0, for 1 and for every number
    above 1, and for nothing else: for a negative number and for a number
    strictly between 0 and 1 it returns [None]. *)
Theorem sizeof_fmt_returns_None (num : Q) :
  ((exists s, sizeof_fmt int_log_1024 num = Some s) <-> num == 0 \/ num == 1 \/ 1 < num)
  /\ (num < 0 \/ 0 < num /\ num < 1 -> sizeof_fmt int_log_1024 num = None).
Proof.
  unfold sizeof_fmt.
  destruct (Qgtb num 1) eqn:E1.
  - apply Qgtb_true in E1. split.
    + split; [intros _; right; right; exact E1|]. intros _.
      destruct (nth _ unit_list _) as [unit num_decimals]. eauto.
    + intros [H | [_ H]]; lra.
  - apply Qgtb_false in E1.
    destruct (Qeq_bool num 0) eqn:E2.
    + apply Qeq_bool_iff in E2. split; [split; eauto | intros [H | [H _]]; lra].
    + apply Qeq_bool_neq in E2.
      destruct (Qeq_bool num 1) eqn:E3.
      * apply Qeq_bool_iff in E3. split; [split; eauto | intros [H | [_ H]]; lra].
      * apply Qeq_bool_neq in E3. split; [|reflexivity].
        split; [intros [s H]; discriminate H|].
        intros [H | [H | H]]; [contradiction | contradiction | lra].
Qed.

End Logarithm.

(** C3 fails as stated: kB has no decimals, so 1024 bytes are not printed
    as "1.0 kB", whatever the integer part of the logarithm comes to. *)
Lemma sizeof_fmt_1024_has_no_decimal :
  ~ (exists int_log_1024 : Q -> nat, sizeof_fmt int_log_1024 1024 = Some "1.0 kB").
Proof.
  intros [int_log_1024 H].
  rewrite sizeof_fmt_above_1 in H by reflexivity.
  assert (Hle : (unit_of int_log_1024 1024 <= 5)%nat) by (unfold unit_of; lia).
  destruct (unit_of int_log_1024 1024) as [|[|[|[|[|[|e]]]]]];
    try (vm_compute in H; discriminate H).
  lia.
Qed.

Lemma sizeof_fmt_table_witness :
  sizeof_fmt exact_log_1024 0 = Some "0 bytes"
  /\ sizeof_fmt exact_log_1024 1 = Some "1 byte"
  /\ sizeof_fmt exact_log_1024 1024 = Some "1 kB"
  /\ sizeof_fmt exact_log_1024 1048576 = Some "1.0 MB"
  /\ sizeof_fmt exact_log_1024 1073741824 = Some "1.00 GB"
  /\ map label (seq 0 6) = ["bytes"; "kB"; "MB"; "GB"; "TB"; "PB"]
  /\ map decimals (seq 0 6) = [0; 0; 1; 2; 2; 2]%nat
  /\ (forall num,
        1 < num ->
        (unit_of exact_log_1024 num <= 5)%nat
        /\ sizeof_fmt exact_log_1024 num
           = Some (format_f (decimals (unit_of exact_log_1024 num))
                     (num / inject_Z (1024 ^ Z.of_nat (unit_of exact_log_1024 num)))
                   ++ " " ++ label (unit_of exact_log_1024 num))).
Proof.
  apply (sizeof_fmt_table exact_log_1024); reflexivity.
Defined.

Lemma sizeof_fmt_returns_None_witness :
  sizeof_fmt exact_log_1024 (1 # 2) = None /\ sizeof_fmt exact_log_1024 (-3) = None.
Proof.
  split.
  - apply (proj2 (sizeof_fmt_returns_None exact_log_1024 (1 # 2))).
    right. split; reflexivity.
  - apply (proj2 (sizeof_fmt_returns_None exact_log_1024 (-3))). left. reflexivity.
Defined.

End SetupFacts.

(** ** The acceptance test *)

Module SharedTestFacts.
Import Py Shared SharedTest PyFacts SetupFacts.
Local Open Scope Q_scope.

(** A live value that is a number within half a unit of the reference. *)
Definition within (first : option Q) (second : Q) : Prop :=
  match first with
  | Some v => Qabs (v - second) <= 1 # 2
  | None => False
  end.

(** The reference marks the property not computed, and the query left it
    absent. *)
Definition not_computed (reference : Q) (live : option Q) : Prop :=
  reference <= 0 /\ live = None.

Lemma not_computed_iff (reference : Q) (live : option Q) :
  Qle_bool reference 0 && is_None live = true <-> not_computed reference live.
Proof.
  unfold not_computed. rewrite andb_true_iff, Qle_bool_iff.
  destruct live; simpl; intuition congruence.
Qed.

Lemma assertAlmostEqual_passes (first : option Q) (second : Q) :
  assertAlmostEqual first second 0 = Ok tt <-> within first second.
Proof.
  unfold assertAlmostEqual, within. destruct first as [v|]; [|split; [discriminate | tauto]].
  destruct (Qeq_bool v second) eqn:E.
  - apply Qeq_bool_iff in E. split; [|reflexivity]. intros _.
    assert (H : v - second == 0) by lra. rewrite H. discriminate.
  - change (inject_Z (10 ^ Z.of_nat 0)) with 1.
    assert (Hm : Qabs (v - second) * 1 == Qabs (v - second)) by ring.
    pose proof (Qabs_nonneg (v - second)) as Hn.
    assert (Hr : Setup.round_half_even (Qabs (v - second) * 1) = 0%Z
                 <-> Qabs (v - second) <= 1 # 2).
    { rewrite <- (round_half_even_zero (Qabs (v - second)) Hn).
      unfold Setup.round_half_even.
      assert (Hfl : Qfloor (Qabs (v - second) * 1) = Qfloor (Qabs (v - second)))
        by (apply Qfloor_comp; exact Hm).
      rewrite Hfl.
      assert (Hc : Qcompare (Qabs (v - second) * 1 - inject_Z (Qfloor (Qabs (v - second))))
                     (1 # 2)
                   = Qcompare (Qabs (v - second) - inject_Z (Qfloor (Qabs (v - second))))
                       (1 # 2)).
      { apply Qcompare_comp; [rewrite Hm|]; reflexivity. }
      rewrite Hc. reflexivity. }
    destruct (Z.eqb _ 0) eqn:Ez.
    + apply Z.eqb_eq in Ez. split; [intros _; apply Hr; exact Ez | reflexivity].
    + apply Z.eqb_neq in Ez. split; [discriminate|]. intros H. apply Hr in H. contradiction.
Qed.

(** C2, as the code has it: a point is passed over, with none of its
    three comparisons made, exactly when at least one of vp, vs and
    density is both marked not computed by the reference and absent from
    the query; at every other point vp, vs and density are each asserted,
    in this order, to equal the reference to 0 decimals, so the point
    passes exactly when each of the three is a number within half a unit
    of its reference. *)
Theorem point_comparison (arr : Reference) (x y z : nat) (live : VelocityProperties) :
  (skips arr x y z live = true
   <-> not_computed (at_ arr x y z 0%nat) (vp live)
       \/ not_computed (at_ arr x y z 1%nat) (vs live)
       \/ not_computed (at_ arr x y z 2%nat) (density live))
  /\ (skips arr x y z live = true ->
      comparisons arr x y z live = []
      /\ check_point arr x y z (Some live) = Ok tt)
  /\ (skips arr x y z live = false ->
      comparisons arr x y z live
      = [ (vp live, at_ arr x y z 0%nat);
          (vs live, at_ arr x y z 1%nat);
          (density live, at_ arr x y z 2%nat) ]
      /\ (check_point arr x y z (Some live) = Ok tt
          <-> within (vp live) (at_ arr x y z 0%nat)
              /\ within (vs live) (at_ arr x y z 1%nat)
              /\ within (density live) (at_ arr x y z 2%nat))).
Proof.
  split; [|split].
  - unfold skips. rewrite !orb_true_iff, !not_computed_iff. tauto.
  - intros H. unfold check_point, comparisons. rewrite H. split; reflexivity.
  - intros H. unfold check_point, comparisons. rewrite H. split; [reflexivity|].
    rewrite <- !assertAlmostEqual_passes. simpl.
    destruct (assertAlmostEqual (vp live) _ 0) as [[]|e1]; simpl;
      [|split; [discriminate | intros (H1 & _); discriminate H1]].
    destruct (assertAlmostEqual (vs live) _ 0) as [[]|e2]; simpl;
      [|split; [discriminate | intros (_ & H2 & _); discriminate H2]].
    destruct (assertAlmostEqual (density live) _ 0) as [[]|e3]; simpl;
      [|split; [discriminate | intros (_ & _ & H3); discriminate H3]].
    tauto.
Qed.

(** A reference that marks vp not computed at its one point, and a query
    result without vp whose vs is off by 1000. *)
Definition reference_without_vp : Reference :=
  mkReference 1 1 1
    (fun _ _ _ p => match p with O => -1 | S O => 3000 | _ => 2000 end).

Definition live_without_vp : VelocityProperties :=
  mkVelocityProperties None (Some 4000) (Some 2000) None None
    None (Some "model"%string) (Some "model"%string) None None.

(** C2 fails as stated: where vp is marked not computed and absent, the
    comparison of vs is left out too, although the reference has a vs
    and the query returned one. *)
Lemma computed_property_not_compared :
  ~ (forall (arr : Reference) (x y z : nat) (live : VelocityProperties),
       ~ not_computed (at_ arr x y z 1%nat) (vs live) ->
       In (vs live, at_ arr x y z 1%nat) (comparisons arr x y z live)).
Proof.
  intros H.
  apply (H reference_without_vp 0%nat 0%nat 0%nat live_without_vp).
  intros [_ Habsent]. discriminate Habsent.
Qed.

Lemma point_comparison_witness :
  (comparisons reference_without_vp 0 0 0 live_without_vp = []
   /\ check_point reference_without_vp 0 0 0 (Some live_without_vp) = Ok tt).
Proof.
  apply (proj1 (proj2 (point_comparison reference_without_vp 0 0 0 live_without_vp))).
  reflexivity.
Defined.

End SharedTestFacts.

(** * Further properties *)

(** ** The depth lookup, case by case *)

Module LookupCases.
Import Py Shared OneDimensional PyFacts LookupFacts.
Local Open Scope Q_scope.

(** How the loop of the lookup can end on a list with a last layer [s]:
    on the sentinel, at the first layer, or between two neighbours. *)
Inductive ending (depth : Q) (layers : list Layer) (s : Layer)
    : option Layer * option Layer -> Prop :=
| ends_on_sentinel :
    Forall (passes depth) layers ->
    ending depth layers s (Some s, Some s)
| ends_at_first (a : Layer) (after : list Layer) :
    layers = a :: after ->
    depth < l_depth a ->
    ending depth layers s (None, Some a)
| ends_between (before : list Layer) (x a : Layer) (after : list Layer) :
    layers = before ++ x :: a :: after ->
    Forall (passes depth) (before ++ [x]) ->
    depth < l_depth a ->
    ending depth layers s (Some x, Some a).

Lemma scan_ending (depth : Q) (layers : list Layer) (s : Layer) :
  last_item layers = Ok s ->
  ending depth layers s (scan depth None None (layers ++ [s])).
Proof.
  intros Hlast. destruct (last_item_Ok _ _ Hlast) as [l0 E].
  destruct (first_stop depth layers) as [Hall | (xs & a & ys & -> & Hxs & Ha)].
  - rewrite (scan_stops depth layers Hall None None s [] (or_introl eq_refl)).
    rewrite E, current_after_snoc, <- E. now constructor.
  - rewrite <- app_assoc. simpl.
    rewrite (scan_stops depth xs Hxs None None a (ys ++ [s]) (or_intror Ha)).
    apply Qgtb_true in Ha.
    destruct xs as [|x xs' _] using rev_ind.
    + now apply ends_at_first with ys.
    + rewrite current_after_snoc. apply ends_between with xs' ys.
      * now rewrite <- app_assoc.
      * exact Hxs.
      * exact Ha.
Qed.

Lemma passes_le (depth : Q) (l : Layer) : passes depth l <-> l_depth l <= depth.
Proof. apply Qgtb_false. Qed.

(** Two layers on the two sides of the query depth are not equal. *)
Lemma bracket_differs (depth : Q) (x a : Layer) :
  l_depth x <= depth -> depth < l_depth a -> layer_eqb x a = false.
Proof.
  intros Hx Ha. unfold layer_eqb.
  assert (E : Qeq_bool (l_depth x) (l_depth a) = false).
  { apply not_true_iff_false. intros H. apply Qeq_bool_iff in H. lra. }
  now rewrite E.
Qed.

Lemma bracket_divides (depth : Q) (x a : Layer) :
  l_depth x <= depth -> depth < l_depth a ->
  truediv (depth - l_depth x) (l_depth a - l_depth x)
  = Ok ((depth - l_depth x) / (l_depth a - l_depth x)).
Proof.
  intros Hx Ha. unfold truediv.
  assert (E : Qeq_bool (l_depth a - l_depth x) 0 = false).
  { apply not_true_iff_false. intros H. apply Qeq_bool_iff in H. lra. }
  now rewrite E.
Qed.

(** X1: without interpolation the lookup raises IndexError on an empty
    list and TypeError on a query above the top of the first layer, and
    in every other case it returns, under the name of the profile, the
    values of a layer of the list whose top is not below the query. *)
Theorem lookup_verbatim_cases (depth : Q) (layers : list Layer) (name : string) :
  match layers with
  | [] => fst (_get_velocity_data depth layers false name) = Raise IndexError
  | first :: _ =>
      if Qgtb (l_depth first) depth
      then fst (_get_velocity_data depth layers false name) = Raise TypeError
      else exists l,
          In l layers /\ l_depth l <= depth
          /\ fst (_get_velocity_data depth layers false name) = Ok (properties_of l name)
  end.
Proof.
  destruct layers as [|first rest]; [reflexivity|].
  destruct (last_item (first :: rest)) as [s|e] eqn:Hlast.
  2:{ apply last_item_nil in Hlast. destruct Hlast as [H _]. discriminate H. }
  rewrite (lookup_unfold _ _ _ _ _ Hlast).
  pose proof (scan_ending depth _ _ Hlast) as Hend.
  assert (Hs : In s (first :: rest)).
  { destruct (last_item_Ok _ _ Hlast) as [l0 ->]. apply in_or_app. right. now left. }
  destruct Hend as [Hall | a after E Ha | before x a after E Hpass Ha];
    cbn [fst]; unfold answer; cbv beta iota; cbn [fst].
  - inversion Hall as [|? ? H1 _]; subst. unfold passes in H1. rewrite H1.
    exists s. simpl opt_layer_eqb. rewrite layer_eqb_refl.
    split; [exact Hs|]. split; [|reflexivity].
    rewrite Forall_forall in Hall. apply passes_le. now apply Hall.
  - inversion E; subst. apply Qgtb_true in Ha. rewrite Ha. reflexivity.
  - assert (Hx : l_depth x <= depth).
    { apply passes_le. apply Forall_app in Hpass. destruct Hpass as [_ H].
      now inversion H. }
    assert (Hfirst : Qgtb (l_depth first) depth = false).
    { destruct before as [|b before'].
      - inversion E; subst. now apply passes_le.
      - inversion E; subst. inversion Hpass. assumption. }
    assert (Hin : In x (first :: rest)).
    { rewrite E. apply in_or_app. right. now left. }
    rewrite Hfirst. simpl opt_layer_eqb. rewrite (bracket_differs depth x a Hx Ha).
    exists x. split; [exact Hin|]. split; [exact Hx | reflexivity].
Qed.

(** X2: the lookup raises nothing but IndexError, and that on the empty
    list only, and TypeError; in particular it never divides by zero. *)
Theorem lookup_raises (depth : Q) (layers : list Layer) (interpolate : bool)
    (name : string) (e : exn) :
  fst (_get_velocity_data depth layers interpolate name) = Raise e ->
  (layers = [] /\ e = IndexError) \/ (layers <> [] /\ e = TypeError).
Proof.
  destruct (last_item layers) as [s|e0] eqn:Hlast.
  2:{ unfold _get_velocity_data. rewrite Hlast. simpl. intros H; inversion H; subst.
      left. now apply last_item_nil. }
  intros H. right. split.
  { intros ->. discriminate Hlast. }
  rewrite (lookup_unfold _ _ _ _ _ Hlast) in H. cbn [fst] in H.
  destruct (scan_ending depth _ _ Hlast) as [Hall | a after E Ha | before x a after E Hpass Ha];
    unfold answer in H; cbv beta iota in H; cbn [fst] in H.
  - simpl in H. rewrite layer_eqb_refl in H. discriminate H.
  - simpl in H. destruct interpolate; inversion H; reflexivity.
  - assert (Hx : l_depth x <= depth).
    { apply passes_le. apply Forall_app in Hpass. destruct Hpass as [_ Hp].
      now inversion Hp. }
    simpl opt_layer_eqb in H. rewrite (bracket_differs depth x a Hx Ha) in H.
    destruct interpolate; [|discriminate H].
    cbn [subscript bind] in H. rewrite (bracket_divides depth x a Hx Ha) in H.
    cbn [bind] in H.
    repeat match type of H with
           | bind (interpolate_field ?p ?c ?v) _ = Raise _ =>
               let E := fresh "E" in
               destruct (interpolate_field p c v) eqn:E; cbn [bind] in H;
               [| inversion H; subst; clear H;
                  destruct v, c; inversion E; reflexivity]
           end.
    discriminate H.
Qed.

Lemma lookup_raises_witness :
  ([shallow_layer] = [] /\ TypeError = IndexError)
  \/ ([shallow_layer] <> [] /\ TypeError = TypeError).
Proof.
  apply (lookup_raises (-1) [shallow_layer] true "one layer" TypeError). reflexivity.
Defined.

Lemma increasing_prefix (l1 l2 : list Layer) : increasing (l1 ++ l2) -> increasing l1.
Proof.
  unfold increasing. induction l1 as [|x l1 IH]; simpl; intros H; [constructor|].
  inversion H as [|? ? Hs Hh]; subst. constructor; [now apply IH|].
  destruct l1 as [|y l1]; [constructor|]. inversion Hh; subst. now constructor.
Qed.

(** In an increasing list the layers up to one whose top is not below
    the query all let the loop pass. *)
Lemma increasing_passes (depth : Q) (before : list Layer) (x : Layer) (rest : list Layer) :
  increasing (before ++ x :: rest) -> l_depth x <= depth ->
  Forall (passes depth) (before ++ [x]).
Proof.
  intros Hinc Hx.
  assert (H : increasing (before ++ [x])).
  { apply increasing_prefix with rest. now rewrite <- app_assoc. }
  apply increasing_below_last in H.
  eapply Forall_impl; [|exact H]. intros l Hl. simpl in Hl. apply passes_le. lra.
Qed.

Lemma scan_bracket (depth : Q) (before : list Layer) (x a : Layer) (after : list Layer)
    (s : Layer) :
  Forall (passes depth) (before ++ [x]) -> depth < l_depth a ->
  scan depth None None ((before ++ x :: a :: after) ++ [s]) = (Some x, Some a).
Proof.
  intros Hpass Ha.
  replace ((before ++ x :: a :: after) ++ [s])
    with ((before ++ [x]) ++ a :: (after ++ [s])) by (now rewrite <- !app_assoc).
  rewrite (scan_stops depth _ Hpass None None a _ (or_intror (proj2 (Qgtb_true _ _) Ha))).
  now rewrite current_after_snoc.
Qed.

Lemma last_item_inner (before : list Layer) (x a : Layer) (after : list Layer) :
  exists s, last_item (before ++ x :: a :: after) = Ok s.
Proof.
  destruct (last_item (before ++ x :: a :: after)) as [s|e] eqn:E; [eauto|].
  apply last_item_nil in E. destruct E as [E _]. now destruct before.
Qed.

(** X3: in a list of layers ordered by increasing depth-to-top, a query
    at or below the top of one layer and above the top of the next
    returns, without interpolation, the values of the first of the two as
    they are, under the name of the profile. *)
Theorem lookup_verbatim_between (depth : Q) (before : list Layer) (x a : Layer)
    (after : list Layer) (name : string) :
  increasing (before ++ x :: a :: after) ->
  l_depth x <= depth ->
  depth < l_depth a ->
  fst (_get_velocity_data depth (before ++ x :: a :: after) false name)
  = Ok (properties_of x name).
Proof.
  intros Hinc Hx Ha.
  destruct (last_item_inner before x a after) as [s Hlast].
  rewrite (lookup_unfold _ _ _ _ _ Hlast).
  rewrite (scan_bracket depth before x a after s (increasing_passes _ _ _ _ Hinc Hx) Ha).
  unfold answer. cbv beta iota. cbn [fst]. simpl opt_layer_eqb.
  now rewrite (bracket_differs depth x a Hx Ha).
Qed.

Lemma lookup_verbatim_between_witness :
  fst (_get_velocity_data 500 ([] ++ shallow_layer :: deep_layer :: []) false "two layers")
  = Ok (properties_of shallow_layer "two layers").
Proof.
  apply (lookup_verbatim_between 500 [] shallow_layer deep_layer [] "two layers").
  - repeat constructor. simpl. unfold Qle. simpl. lia.
  - simpl. unfold Qle. simpl. lia.
  - reflexivity.
Defined.

(** The share of the way from the top of [x] down to the top of [a]. *)
Definition weight (depth : Q) (x a : Layer) : Q :=
  (depth - l_depth x) / (l_depth a - l_depth x).

(** [value] is what the interpolation makes of a property that is
    [upper] in the layer above and [lower] in the layer below: nothing
    when the layer above has none, and else the number at the share [w]
    of the way from [upper] to [lower], which lies between the two. *)
Definition blend (w : Q) (upper lower value : option Q) : Prop :=
  match upper with
  | None => value = None
  | Some u =>
      exists l v,
        lower = Some l /\ value = Some v
        /\ v == u + w * (l - u)
        /\ Qmin u l <= v /\ v <= Qmax u l
  end.

Lemma weight_bounds (depth : Q) (x a : Layer) :
  l_depth x <= depth -> depth < l_depth a ->
  0 <= weight depth x a /\ weight depth x a < 1.
Proof.
  intros Hx Ha. unfold weight. split.
  - apply Qle_shift_div_l; lra.
  - apply Qlt_shift_div_r; lra.
Qed.

Lemma interpolate_field_blend (w : Q) (lower upper value : option Q) :
  0 <= w -> w < 1 ->
  interpolate_field w lower upper = Ok value -> blend w upper lower value.
Proof.
  intros H0 H1. unfold interpolate_field, blend.
  destruct upper as [u|]; [|intros H; now inversion H].
  destruct lower as [l|]; [|discriminate]. intros H; inversion H; subst.
  exists l, (w * (l - u) + u). split; [reflexivity|]. split; [reflexivity|].
  split; [ring|].
  destruct (Qlt_le_dec u l) as [Hul | Hlu].
  - rewrite (Q.min_l u l), (Q.max_r u l) by lra. split; nra.
  - rewrite (Q.min_r u l), (Q.max_l u l) by lra. split; nra.
Qed.

(** X4: under the same conditions, and when the layer below has every
    value the layer above has, the lookup with interpolation returns,
    under the name with the suffix of an interpolation, for each of the
    five properties the value at the share of the depth between the two
    tops; each value lies between those of the two layers, and a property
    the layer above lacks stays absent. *)
Theorem lookup_interpolated_between (depth : Q) (before : list Layer) (x a : Layer)
    (after : list Layer) (name : string) :
  increasing (before ++ x :: a :: after) ->
  l_depth x <= depth ->
  depth < l_depth a ->
  interpolable x a ->
  exists r,
    fst (_get_velocity_data depth (before ++ x :: a :: after) true name) = Ok r
    /\ labelled r (interpolated name)
    /\ blend (weight depth x a) (l_vp x) (l_vp a) (vp r)
    /\ blend (weight depth x a) (l_vs x) (l_vs a) (vs r)
    /\ blend (weight depth x a) (l_density x) (l_density a) (density r)
    /\ blend (weight depth x a) (l_qp x) (l_qp a) (qp r)
    /\ blend (weight depth x a) (l_qs x) (l_qs a) (qs r).
Proof.
  intros Hinc Hx Ha (I1 & I2 & I3 & I4 & I5).
  destruct (last_item_inner before x a after) as [s Hlast].
  rewrite (lookup_unfold _ _ _ _ _ Hlast).
  rewrite (scan_bracket depth before x a after s (increasing_passes _ _ _ _ Hinc Hx) Ha).
  unfold answer. cbv beta iota. cbn [fst]. simpl opt_layer_eqb.
  rewrite (bracket_differs depth x a Hx Ha). cbn [subscript bind].
  rewrite (bracket_divides depth x a Hx Ha). cbn [bind]. fold (weight depth x a).
  destruct (weight_bounds depth x a Hx Ha) as [W0 W1].
  destruct (interpolate_field_defined (weight depth x a) _ _ I1) as [f1 E1].
  destruct (interpolate_field_defined (weight depth x a) _ _ I2) as [f2 E2].
  destruct (interpolate_field_defined (weight depth x a) _ _ I3) as [f3 E3].
  destruct (interpolate_field_defined (weight depth x a) _ _ I4) as [f4 E4].
  destruct (interpolate_field_defined (weight depth x a) _ _ I5) as [f5 E5].
  rewrite E1, E2, E3, E4, E5. cbn [bind].
  eexists. split; [reflexivity|]. split; [repeat split|].
  cbn [vp vs density qp qs].
  repeat split; eapply interpolate_field_blend; eassumption.
Qed.

Lemma lookup_interpolated_between_witness :
  exists r,
    fst (_get_velocity_data 250 ([] ++ shallow_layer :: deep_layer :: []) true "two layers")
    = Ok r
    /\ labelled r (interpolated "two layers")
    /\ blend (weight 250 shallow_layer deep_layer) (Some 1000) (Some 2000) (vp r)
    /\ blend (weight 250 shallow_layer deep_layer) (Some 500) (Some 1000) (vs r)
    /\ blend (weight 250 shallow_layer deep_layer) (Some 2000) (Some 2500) (density r)
    /\ blend (weight 250 shallow_layer deep_layer) None None (qp r)
    /\ blend (weight 250 shallow_layer deep_layer) None None (qs r).
Proof.
  apply (lookup_interpolated_between 250 [] shallow_layer deep_layer [] "two layers").
  - repeat constructor. simpl. unfold Qle. simpl. lia.
  - simpl. unfold Qle. simpl. lia.
  - reflexivity.
  - repeat split; intros H; (exact H || discriminate).
Defined.

End LookupCases.

(** ** The two parsers as builders of a list *)

Module ParserFacts.
Import Py Shared OneDimensional PyFacts LookupFacts ParsingFacts QueryFacts.
Local Open Scope Q_scope.

Section Parsers.

Variable is_number : string -> bool.
Variable calculate_scaled_density : Q -> Q.
Variable calculate_scaled_vs : Q -> Q -> Q.

Lemma bbp_lines_appends (lines : list string) :
  forall current_depth layers,
    bbp_lines is_number calculate_scaled_density calculate_scaled_vs
      current_depth lines layers
    = (fst (bbp_lines is_number calculate_scaled_density calculate_scaled_vs
              current_depth lines []),
       layers ++ snd (bbp_lines is_number calculate_scaled_density calculate_scaled_vs
                        current_depth lines [])).
Proof.
  induction lines as [|line rest IH]; intros current_depth layers; simpl.
  - now rewrite app_nil_r.
  - destruct (split line) as [|leading tokens]; [apply IH|].
    destruct (is_number leading); [|apply IH].
    destruct (bbp_layer _ _ _ _) as [layer|e]; simpl; [|now rewrite app_nil_r].
    destruct (py_float leading) as [thickness|e]; simpl; [|reflexivity].
    rewrite (IH _ (layers ++ [layer])), (IH _ [layer]). simpl.
    now rewrite <- app_assoc.
Qed.

Lemma scec_layers_appends (layer_dict : LayerDict) (numbers : list Z) :
  forall last_depth layers,
    scec_layers calculate_scaled_density calculate_scaled_vs layer_dict
      last_depth numbers layers
    = (fst (scec_layers calculate_scaled_density calculate_scaled_vs layer_dict
              last_depth numbers []),
       layers ++ snd (scec_layers calculate_scaled_density calculate_scaled_vs layer_dict
                        last_depth numbers [])).
Proof.
  induction numbers as [|i rest IH]; intros last_depth layers; simpl.
  - now rewrite app_nil_r.
  - destruct (dict_get layer_dict i) as [entry|e]; simpl; [|now rewrite app_nil_r].
    destruct (times_1000 (e_vp entry)) as [v|e]; simpl; [|now rewrite app_nil_r].
    rewrite (IH _ (layers ++ _)), (IH _ [_]). simpl. now rewrite <- app_assoc.
Qed.

(** X5: either parser only adds to the end of the list it is given: the
    layers already there stay, and the outcome and the layers added are
    those of parsing into an empty list. *)
Theorem parsers_append (layers : list Layer) :
  (forall text_info,
      _parse_bbp_model is_number calculate_scaled_density calculate_scaled_vs
        text_info layers
      = (fst (_parse_bbp_model is_number calculate_scaled_density calculate_scaled_vs
                text_info []),
         layers ++ snd (_parse_bbp_model is_number calculate_scaled_density
                          calculate_scaled_vs text_info [])))
  /\ (forall records,
        _parse_scec_model calculate_scaled_density calculate_scaled_vs records layers
        = (fst (_parse_scec_model calculate_scaled_density calculate_scaled_vs
                  records []),
           layers ++ snd (_parse_scec_model calculate_scaled_density
                            calculate_scaled_vs records []))).
Proof.
  split.
  - intros text_info. unfold _parse_bbp_model. apply bbp_lines_appends.
  - intros records. unfold _parse_scec_model.
    destruct (scec_collect records []) as [layer_dict|e]; simpl.
    + apply scec_layers_appends.
    + now rewrite app_nil_r.
Qed.

(** A line whose thickness, where [float] reads one, is not negative. *)
Definition thickness_not_negative (line : string) : Prop :=
  match split line with
  | leading :: _ => forall t, py_float leading = Ok t -> 0 <= t
  | [] => True
  end.

Lemma increasing_snoc (layers : list Layer) (l : Layer) :
  increasing layers ->
  Forall (fun x => l_depth x <= l_depth l) layers ->
  increasing (layers ++ [l]).
Proof.
  unfold increasing. induction layers as [|x layers IH]; simpl; intros Hs Hle.
  - repeat constructor.
  - inversion Hs as [|? ? Hs' Hh]; subst. inversion Hle as [|? ? Hx Hle']; subst.
    constructor; [now apply IH|].
    destruct layers as [|y layers]; simpl; constructor; [exact Hx|].
    now inversion Hh.
Qed.

Lemma bbp_lines_increasing (lines : list string) :
  Forall thickness_not_negative lines ->
  forall current_depth layers,
    0 <= current_depth ->
    increasing layers ->
    Forall (fun l => 0 <= l_depth l /\ l_depth l <= current_depth) layers ->
    let after := snd (bbp_lines is_number calculate_scaled_density calculate_scaled_vs
                        current_depth lines layers) in
    increasing after /\ Forall (fun l => 0 <= l_depth l) after.
Proof.
  induction 1 as [|line rest Hline _ IH]; intros current_depth layers H0 Hinc Hle;
    cbn zeta; simpl.
  - split; [exact Hinc|]. eapply Forall_impl; [|exact Hle]. now intros l [H _].
  - unfold thickness_not_negative in Hline.
    destruct (split line) as [|leading tokens]; [now apply IH|].
    destruct (is_number leading); [|now apply IH].
    destruct (bbp_layer _ _ _ _) as [layer|e] eqn:El; simpl.
    2:{ split; [exact Hinc|]. eapply Forall_impl; [|exact Hle]. now intros l [H _]. }
    apply bbp_layer_depth in El.
    assert (Hinc' : increasing (layers ++ [layer])).
    { apply increasing_snoc; [exact Hinc|].
      eapply Forall_impl; [|exact Hle]. intros l [_ H]. now rewrite El. }
    assert (Hle' : Forall (fun l => 0 <= l_depth l /\ l_depth l <= current_depth)
                     (layers ++ [layer])).
    { apply Forall_app. split; [exact Hle|]. constructor; [|constructor].
      rewrite El. split; [exact H0 | apply Qle_refl]. }
    destruct (py_float leading) as [thickness|e] eqn:Ef; simpl.
    + specialize (Hline thickness eq_refl).
      apply IH; [nra | exact Hinc' |].
      eapply Forall_impl; [|exact Hle']. intros l [Ha Hb]. split; [exact Ha | nra].
    + split; [exact Hinc'|]. eapply Forall_impl; [|exact Hle']. now intros l [H _].
Qed.

(** X6: when no line of a BBP text has a negative thickness, the layers
    parsed from it, also those parsed before a line that raises, are
    ordered by increasing depth-to-top, and no top lies above the
    surface. *)
Theorem bbp_layers_increasing (text_info : string) :
  Forall thickness_not_negative (splitlines text_info) ->
  increasing (snd (_parse_bbp_model is_number calculate_scaled_density
                     calculate_scaled_vs text_info []))
  /\ Forall (fun l => 0 <= l_depth l)
       (snd (_parse_bbp_model is_number calculate_scaled_density
               calculate_scaled_vs text_info [])).
Proof.
  intros H. unfold _parse_bbp_model.
  apply (bbp_lines_increasing _ H 0 []); [apply Qle_refl | constructor | constructor].
Qed.

Lemma bbp_lines_raises (lines : list string) :
  forall current_depth layers e,
    fst (bbp_lines is_number calculate_scaled_density calculate_scaled_vs
           current_depth lines layers) = Raise e ->
    e = IndexError \/ e = ValueError.
Proof.
  assert (Hf : forall s e, py_float s = Raise e -> e = ValueError).
  { intros s e. unfold py_float. destruct (signed _) as [sg body].
    destruct (cut_at _ _ body) as [[m x]|]; destruct (mantissa _) as [[n k]|];
      try destruct (exponent_part _); intros H; now inversion H. }
  assert (Hi : forall (l : list string) i e, item l i = Raise e -> e = IndexError).
  { intros l i e. unfold item. destruct (nth_error l i); intros H; now inversion H. }
  assert (Hc : forall l i o e, scaled_column l i o = Raise e
                               -> e = IndexError \/ e = ValueError).
  { intros l i o e. unfold scaled_column. destruct (_ <? _)%nat; [|discriminate].
    destruct (item l i) as [t|e0] eqn:E; simpl.
    - destruct (py_float t) as [f|e1] eqn:E1; simpl; [discriminate|].
      intros H; inversion H; subst. right. eapply Hf; eassumption.
    - intros H; inversion H; subst. left. eapply Hi; eassumption. }
  assert (Ho : forall l i e, optional_column l i = Raise e
                             -> e = IndexError \/ e = ValueError).
  { intros l i e. unfold optional_column. destruct (_ <? _)%nat; [|discriminate].
    destruct (item l i) as [t|e0] eqn:E; simpl.
    - destruct (py_float t) as [f|e1] eqn:E1; simpl; [discriminate|].
      intros H; inversion H; subst. right. eapply Hf; eassumption.
    - intros H; inversion H; subst. left. eapply Hi; eassumption. }
  induction lines as [|line rest IH]; intros current_depth layers e; simpl.
  - discriminate.
  - destruct (split line) as [|leading tokens]; [apply IH|].
    destruct (is_number leading); [|apply IH].
    destruct (bbp_layer _ _ _ _) as [layer|e0] eqn:El; simpl.
    + destruct (py_float leading) as [t|e1] eqn:Ef; [apply IH|].
      simpl. intros H; inversion H; subst. right. eapply Hf; eassumption.
    + intros H; inversion H; subst. clear H. unfold bbp_layer in El.
      repeat match type of El with
             | bind ?m _ = Raise _ =>
                 let E := fresh "E" in
                 destruct m eqn:E; simpl in El;
                 [| inversion El; subst; eauto ]
             end.
      discriminate El.
Qed.

(** X7: the BBP parser raises nothing but IndexError and ValueError; a
    numeric line of a single column, which has no vp, raises IndexError
    and adds no layer, and the layers of the lines before it stay. *)
Theorem bbp_parser_raises (current_depth : Q) (line : string) (rest : list string)
    (layers : list Layer) (token : string) :
  split line = [token] ->
  is_number token = true ->
  bbp_lines is_number calculate_scaled_density calculate_scaled_vs
    current_depth (line :: rest) layers = (Raise IndexError, layers)
  /\ (forall text_info before e,
        fst (_parse_bbp_model is_number calculate_scaled_density calculate_scaled_vs
               text_info before) = Raise e ->
        e = IndexError \/ e = ValueError).
Proof.
  intros Hs Hn. split.
  - simpl. now rewrite Hs, Hn.
  - intros text_info before e. apply bbp_lines_raises.
Qed.

Lemma scec_layers_tops (layer_dict : LayerDict) (numbers : list Z) :
  forall last_depth layers after,
    scec_layers calculate_scaled_density calculate_scaled_vs layer_dict
      last_depth numbers layers = (Ok tt, after) ->
    exists entries,
      Forall2 (fun i entry => dict_get layer_dict i = Ok entry) numbers entries
      /\ map l_depth after
         = map l_depth layers
           ++ removelast (last_depth :: map (fun entry => e_depth entry * 1000) entries).
Proof.
  induction numbers as [|i rest IH]; intros last_depth layers after; simpl.
  - intros H; inversion H; subst. exists []. split; [constructor|].
    simpl. now rewrite app_nil_r.
  - destruct (dict_get layer_dict i) as [entry|e] eqn:Ed; simpl; [|discriminate].
    destruct (times_1000 (e_vp entry)) as [v|e]; simpl; [|discriminate].
    intros H. destruct (IH _ _ _ H) as (entries & Hf & Hm).
    exists (entry :: entries). split; [now constructor|].
    rewrite Hm, map_app, <- app_assoc. reflexivity.
Qed.

(** X8: when the parser of the XML layer list succeeds, it has made one
    layer for each number from 1 to the count of the numbers it met; the
    top of the first layer is 0, the top of each further layer is 1000
    times the depth of the record numbered one less, and the depth of
    the record with the greatest number is not used. *)
Theorem scec_layer_tops (records : list XmlLayer) (layers : list Layer) :
  _parse_scec_model calculate_scaled_density calculate_scaled_vs records []
  = (Ok tt, layers) ->
  exists layer_dict entries,
    scec_collect records [] = Ok layer_dict
    /\ Forall2 (fun i entry => dict_get layer_dict i = Ok entry)
         (range_from_1 (List.length layer_dict)) entries
    /\ List.length layers = List.length layer_dict
    /\ map l_depth layers
       = removelast (0 :: map (fun entry => e_depth entry * 1000) entries).
Proof.
  unfold _parse_scec_model.
  destruct (scec_collect records []) as [layer_dict|e]; [|discriminate].
  intros H. destruct (scec_layers_tops _ _ _ _ _ H) as (entries & Hf & Hm).
  exists layer_dict, entries. split; [reflexivity|]. split; [exact Hf|]. split; [|exact Hm].
  apply (f_equal (@List.length Q)) in Hm. rewrite length_map in Hm. rewrite Hm. simpl.
  apply Forall2_length in Hf. unfold range_from_1 in Hf.
  rewrite length_map, length_seq in Hf.
  rewrite Hf. clear. destruct entries as [|entry entries]; [reflexivity|].
  cbn [map List.length]. f_equal.
  revert entry. induction entries as [|x entries IH]; intros entry.
  - reflexivity.
  - cbn [map removelast List.length] in *. f_equal. apply IH.
Qed.

End Parsers.

Lemma bbp_layers_increasing_witness :
  increasing (snd (_parse_bbp_model reads_as_float (fun _ => 0) (fun _ _ => 0)
                     two_lines []))
  /\ Forall (fun l => 0 <= l_depth l)
       (snd (_parse_bbp_model reads_as_float (fun _ => 0) (fun _ _ => 0) two_lines [])).
Proof.
  apply (bbp_layers_increasing reads_as_float (fun _ => 0) (fun _ _ => 0) two_lines).
  change (splitlines two_lines) with [four_columns; "2.00 6.00 3.50 2.80"%string].
  constructor; [|constructor; [|constructor]].
  - change (thickness_not_negative four_columns)
      with (forall t, py_float "1.00" = Ok t -> 0 <= t).
    intros t H. vm_compute in H. inversion H. discriminate.
  - change (thickness_not_negative "2.00 6.00 3.50 2.80")
      with (forall t, py_float "2.00" = Ok t -> 0 <= t).
    intros t H. vm_compute in H. inversion H. discriminate.
Defined.

Lemma bbp_parser_raises_witness :
  bbp_lines reads_as_float (fun _ => 0) (fun _ _ => 0) 0 ["3.5"%string] []
  = (Raise IndexError, []).
Proof.
  exact (proj1 (bbp_parser_raises reads_as_float (fun _ => 0) (fun _ _ => 0)
                  0 "3.5" [] [] "3.5" eq_refl eq_refl)).
Defined.

(** Two records of an XML layer list, the second without vs. *)
Definition two_records : list XmlLayer :=
  [ [("@number", "1"); ("depth", "1.0"); ("vp", "5.0"); ("vs", "2.9")];
    [("@number", "2"); ("depth", "4.0"); ("vp", "6.0")] ]%string.

Lemma scec_layer_tops_witness :
  exists layer_dict entries,
    scec_collect two_records [] = Ok layer_dict
    /\ Forall2 (fun i entry => dict_get layer_dict i = Ok entry)
         (range_from_1 (List.length layer_dict)) entries
    /\ List.length
         (snd (_parse_scec_model (fun _ => 0) (fun _ _ => 0) two_records []))
       = List.length layer_dict
    /\ map l_depth (snd (_parse_scec_model (fun _ => 0) (fun _ _ => 0) two_records []))
       = removelast (0 :: map (fun entry => e_depth entry * 1000) entries).
Proof.
  apply (scec_layer_tops (fun _ => 0) (fun _ _ => 0) two_records). reflexivity.
Defined.

End ParserFacts.

(** ** What the query does to its points *)

Module QueryPoints.
Import Py Shared OneDimensional PyFacts LookupFacts QueryFacts.
Local Open Scope list_scope.

(** The two lists hold the same points in the same order; only the
    properties of a unit may differ. *)
Definition same_points (before after : list SeismicData) : Prop :=
  map original_point after = map original_point before
  /\ map converted_point after = map converted_point before.

Definition answered (data : list SeismicData) : Prop :=
  Forall (fun d => velocity_properties d <> None) data.

Lemma same_points_refl (data : list SeismicData) : same_points data data.
Proof. split; reflexivity. Qed.

Lemma query_points_keeps (data : list SeismicData) :
  forall layers interpolate name,
    same_points data (snd (query_points data layers interpolate name))
    /\ (forall b, fst (query_points data layers interpolate name) = Ok b ->
                  b = true /\ answered (snd (query_points data layers interpolate name))).
Proof.
  induction data as [|d rest IH]; intros layers interpolate name; simpl.
  - split; [apply same_points_refl|]. intros b H; inversion H. split; [reflexivity|constructor].
  - destruct (_get_velocity_data _ layers interpolate name) as [[v|e] layers'].
    + destruct (IH layers' interpolate name) as [[H1 H2] H3].
      destruct (query_points rest layers' interpolate name) as [r rest']. simpl in *.
      split; [split; simpl; f_equal; assumption|].
      intros b Hb. destruct (H3 b Hb) as [-> Ha]. split; [reflexivity|].
      constructor; [discriminate | exact Ha].
    + simpl. split; [apply same_points_refl | discriminate].
Qed.

Section Keeps.

Variable is_number : string -> bool.
Variable calculate_scaled_density : Q -> Q.
Variable calculate_scaled_vs : Q -> Q -> Q.
Variable model_location : string.
Variable path_exists : string -> bool.
Variable read_profile : string -> option Profile.

(** X9: the query returns the points it was given, as many and in the
    same order, with their original and converted coordinates untouched;
    it may only set their properties.  It returns nothing but [True],
    and when it does, every point has its properties. *)
Theorem query_keeps_points (data : list SeismicData) (params : option string) :
  same_points data
    (snd (_query is_number calculate_scaled_density calculate_scaled_vs
            model_location path_exists read_profile data params))
  /\ (forall b,
        fst (_query is_number calculate_scaled_density calculate_scaled_vs
               model_location path_exists read_profile data params) = Ok b ->
        b = true
        /\ answered
             (snd (_query is_number calculate_scaled_density calculate_scaled_vs
                     model_location path_exists read_profile data params))).
Proof.
  rewrite query_unfold.
  destruct (located model_location path_exists params) as [xml_file|].
  2:{ simpl. split; [apply same_points_refl | discriminate]. }
  unfold query_file. destruct (read_profile xml_file) as [model_1d|].
  2:{ simpl. split; [apply same_points_refl | discriminate]. }
  cbv zeta. destruct (parse_layers _ _ _ model_1d _) as [[u|e] layers].
  - apply query_points_keeps.
  - simpl. split; [apply same_points_refl | discriminate].
Qed.

End Keeps.

End QueryPoints.

(** ** The installer: catalog, choice and report *)

Module SetupScriptFacts.
Import Py Setup SetupScript PyFacts SetupFacts.
Local Open Scope string_scope.
Local Open Scope list_scope.

Definition of_type (type : string) (item : CatalogItem) : bool :=
  String.eqb (c_type item) type.

(** One of the four types of the catalog. *)
Definition known_type (item : CatalogItem) : bool :=
  of_type "velocity" item || of_type "elevation" item
  || of_type "vs30" item || of_type "modifier" item.

Lemma file_items_spec (all_models : list CatalogItem) :
  forall m,
    match file_items all_models m with
    | Ok m' =>
        forallb known_type all_models = true
        /\ velocity m' = velocity m ++ filter (of_type "velocity") all_models
        /\ elevation m' = elevation m ++ filter (of_type "elevation") all_models
        /\ vs30 m' = vs30 m ++ filter (of_type "vs30") all_models
        /\ modifier m' = modifier m ++ filter (of_type "modifier") all_models
    | Raise e => e = KeyError /\ forallb known_type all_models = false
    end.
Proof.
  induction all_models as [|item rest IH]; intros m.
  - simpl. now rewrite !app_nil_r.
  - cbn [file_items filter forallb]. unfold file_item, known_type, of_type.
    destruct (String.eqb (c_type item) "velocity") eqn:E1;
      [|destruct (String.eqb (c_type item) "elevation") eqn:E2;
        [|destruct (String.eqb (c_type item) "vs30") eqn:E3;
          [|destruct (String.eqb (c_type item) "modifier") eqn:E4]]];
      try (match goal with
           | E : String.eqb (c_type item) _ = true |- _ =>
               apply String.eqb_eq in E; rewrite ?E; clear E
           end;
           cbn [String.eqb Ascii.eqb Bool.eqb orb andb];
           match goal with
           | |- context [file_items rest ?c] =>
               specialize (IH c); destruct (file_items rest c); [|exact IH];
               cbn [velocity elevation vs30 modifier] in IH;
               rewrite <- !app_assoc in IH; exact IH
           end).
    cbn [orb andb]. split; reflexivity.
Qed.

(** X10: the catalog is filed by type: when every item has one of the
    four types velocity, elevation, vs30 and modifier, each of the four
    lists holds the items of its type, all of them, in the order of the
    document; an item of any other type raises KeyError. *)
Theorem installable_by_type (all_models : list CatalogItem) :
  match installable all_models with
  | Ok m =>
      forallb known_type all_models = true
      /\ velocity m = filter (of_type "velocity") all_models
      /\ elevation m = filter (of_type "elevation") all_models
      /\ vs30 m = filter (of_type "vs30") all_models
      /\ modifier m = filter (of_type "modifier") all_models
  | Raise e => e = KeyError /\ forallb known_type all_models = false
  end.
Proof.
  unfold installable.
  pose proof (file_items_spec all_models (mkCatalog [] [] [] [])) as H.
  destruct (file_items all_models _); exact H.
Qed.

(** *** The choice *)

Definition entry_of (item : CatalogItem) : string * string := (c_id item, c_name item).

Lemma chosen_In (item : CatalogItem) (selected : list (string * string)) :
  chosen item selected = true <-> In (entry_of item) selected.
Proof.
  unfold chosen, entry_of. rewrite existsb_exists. split.
  - intros [[i n] [Hin H]]. simpl in H. apply andb_true_iff in H. destruct H as [H1 H2].
    apply String.eqb_eq in H1, H2. now subst.
  - intros H. exists (c_id item, c_name item). split; [exact H|]. simpl.
    now rewrite !String.eqb_refl.
Qed.

(** The prompts among the events. *)
Definition prompts (events : list event) : nat :=
  List.length (filter (fun e => match e with Prompted _ => true | Printed _ => false end)
                 events).

Lemma prompts_app (a b : list event) : prompts (a ++ b) = (prompts a + prompts b)%nat.
Proof. unfold prompts. now rewrite filter_app, length_app. Qed.

(** What a part of the loop may do to the choice and to the console. *)
Record step_ok (download_everything : bool) (items : list CatalogItem)
    (before : list (string * string) * Console)
    (after : list (string * string) * Console) : Prop := {
  step_added :
    exists added,
      fst after = fst before ++ added
      /\ Forall (fun m => exists item, In item items /\ m = entry_of item) added;
  step_nodup : NoDup (fst before) -> NoDup (fst after);
  step_all :
    download_everything = true ->
    Forall (fun item => chosen item (fst after) = true) items;
  step_events :
    exists events,
      shown (snd after) = shown (snd before) ++ events
      /\ lines_read (snd after) = (lines_read (snd before) + prompts events)%nat
      /\ (download_everything = true -> prompts events = 0%nat)
}.

Lemma step_ok_refl (download_everything : bool) (st : list (string * string) * Console) :
  step_ok download_everything [] st st.
Proof.
  constructor.
  - exists []. split; [now rewrite app_nil_r | constructor].
  - trivial.
  - intros _. constructor.
  - exists []. rewrite app_nil_r. repeat split. unfold prompts. simpl. lia.
Qed.

Lemma chosen_app (item : CatalogItem) (selected added : list (string * string)) :
  chosen item selected = true -> chosen item (selected ++ added) = true.
Proof.
  rewrite !chosen_In. intros H. apply in_or_app. now left.
Qed.

Lemma step_ok_trans (download_everything : bool) (items1 items2 : list CatalogItem)
    (a b c : list (string * string) * Console) :
  step_ok download_everything items1 a b ->
  step_ok download_everything items2 b c ->
  step_ok download_everything (items1 ++ items2) a c.
Proof.
  intros [[ad1 [A1 F1]] N1 L1 [ev1 [S1 [R1 P1]]]] [[ad2 [A2 F2]] N2 L2 [ev2 [S2 [R2 P2]]]].
  constructor.
  - exists (ad1 ++ ad2). split; [now rewrite A2, A1, app_assoc|].
    apply Forall_app. split; (eapply Forall_impl; [|eassumption]);
      intros m [item [Hin ->]]; exists item; (split; [|reflexivity]);
      apply in_or_app; [left | right]; exact Hin.
  - auto.
  - intros E. apply Forall_app. split; [|now apply L2].
    eapply Forall_impl; [|exact (L1 E)]. intros item H. simpl in H.
    rewrite A2. now apply chosen_app.
  - exists (ev1 ++ ev2). rewrite S2, S1, R2, R1, prompts_app, app_assoc.
    repeat split; [lia|]. intros E. rewrite (P1 E), (P2 E). reflexivity.
Qed.

Section ChoiceFacts.

Variable download_everything : bool.
Variable typed : nat -> string.

Lemma shown_print (text : string) (console : Console) :
  shown (print text console) = shown console ++ [Printed text]
  /\ lines_read (print text console) = lines_read console.
Proof. split; reflexivity. Qed.

Lemma offer_ok (models : list CatalogItem) :
  forall selected console,
    step_ok download_everything models (selected, console)
      (offer download_everything typed models selected console).
Proof.
  induction models as [|item rest IH]; intros selected console.
  - apply step_ok_refl.
  - change (item :: rest) with ([item] ++ rest). simpl offer.
    destruct (chosen item selected) eqn:Ec.
    + apply step_ok_trans with (selected, console); [|apply IH].
      constructor; simpl.
      * exists []. split; [now rewrite app_nil_r | constructor].
      * trivial.
      * intros _. constructor; [exact Ec | constructor].
      * exists []. rewrite app_nil_r. repeat split. unfold prompts. simpl. lia.
    + assert (Hnot : ~ In (entry_of item) selected).
      { rewrite <- chosen_In, Ec. discriminate. }
      destruct download_everything eqn:Ee.
      * eapply step_ok_trans; [|apply IH].
        constructor; simpl.
        -- exists [entry_of item]. split; [reflexivity|].
           constructor; [|constructor]. exists item. split; [now left | reflexivity].
        -- intros Hn. apply NoDup_app; [exact Hn | repeat constructor; intros [] |].
           intros x Hx [<- | []]. now apply Hnot.
        -- intros _. constructor; [|constructor]. apply chosen_In.
           apply in_or_app. right. now left.
        -- eexists. rewrite <- !app_assoc. split; [reflexivity|].
           split; [unfold prompts; simpl; lia | intros _; reflexivity].
      * destruct (says_yes (typed (lines_read console))) eqn:Ey.
        -- eapply step_ok_trans; [|apply IH].
           constructor; simpl.
           ++ exists [entry_of item]. split; [reflexivity|].
              constructor; [|constructor]. exists item. split; [now left | reflexivity].
           ++ intros Hn. apply NoDup_app; [exact Hn | repeat constructor; intros [] |].
              intros x Hx [<- | []]. now apply Hnot.
           ++ discriminate.
           ++ eexists. rewrite <- !app_assoc. split; [reflexivity|].
              split; [unfold prompts; simpl; lia | discriminate].
        -- eapply step_ok_trans; [|apply IH].
           constructor; simpl.
           ++ exists []. split; [now rewrite app_nil_r | constructor].
           ++ trivial.
           ++ discriminate.
           ++ eexists. rewrite <- !app_assoc. split; [reflexivity|].
              split; [unfold prompts; simpl; lia | discriminate].
Qed.

Lemma print_ok (text : string) (selected : list (string * string)) (console : Console) :
  step_ok download_everything [] (selected, console) (selected, print text console).
Proof.
  constructor; simpl.
  - exists []. split; [now rewrite app_nil_r | constructor].
  - trivial.
  - intros _. constructor.
  - exists [Printed text]. repeat split. unfold prompts. simpl. lia.
Qed.

Lemma nothing_left (models : list CatalogItem) (selected : list (string * string)) :
  (List.length (filter (fun x => negb (chosen x selected)) models) =? 0)%nat = true ->
  Forall (fun item => chosen item selected = true) models.
Proof.
  intros H. apply Nat.eqb_eq in H. apply length_zero_iff_nil in H.
  apply Forall_forall. intros item Hin.
  destruct (chosen item selected) eqn:E; [reflexivity|].
  assert (Hf : In item (filter (fun x => negb (chosen x selected)) models)).
  { apply filter_In. split; [exact Hin|]. now rewrite E. }
  rewrite H in Hf. destruct Hf.
Qed.

Lemma offer_category_ok (key : string) (models : list CatalogItem)
    (selected : list (string * string)) (console : Console) :
  step_ok download_everything models (selected, console)
    (offer_category download_everything typed key models selected console).
Proof.
  unfold offer_category.
  destruct (_ =? 0)%nat eqn:E.
  - constructor; simpl.
    + exists []. split; [now rewrite app_nil_r | constructor].
    + trivial.
    + intros _. now apply nothing_left.
    + exists []. rewrite app_nil_r. repeat split. unfold prompts. simpl. lia.
  - pose proof (offer_ok models selected
                  (print (capitalize key ++ " Models:" ++ newline) console)) as H.
    destruct (offer download_everything typed models selected _) as [selected' console'].
    rewrite <- (app_nil_r models).
    eapply step_ok_trans; [|apply print_ok].
    change models with ([] ++ models).
    eapply step_ok_trans; [apply print_ok | exact H].
Qed.

(** The items of the four lists, in the order of the loop. *)
Definition items_of (model_list : Catalog) : list CatalogItem :=
  velocity model_list ++ elevation model_list ++ vs30 model_list ++ modifier model_list.

Lemma choose_ok (model_list : Catalog) (selected : list (string * string))
    (console : Console) :
  step_ok download_everything (items_of model_list) (selected, console)
    (choose download_everything typed model_list selected console).
Proof.
  unfold choose, items_of.
  pose proof (offer_category_ok "velocity" (velocity model_list) selected console) as H1.
  destruct (offer_category _ _ "velocity" _ _ _) as [s1 c1].
  pose proof (offer_category_ok "elevation" (elevation model_list) s1 c1) as H2.
  destruct (offer_category _ _ "elevation" _ _ _) as [s2 c2].
  pose proof (offer_category_ok "vs30" (vs30 model_list) s2 c2) as H3.
  destruct (offer_category _ _ "vs30" _ _ _) as [s3 c3].
  pose proof (offer_category_ok "modifier" (modifier model_list) s3 c3) as H4.
  eapply step_ok_trans; [exact H1|].
  eapply step_ok_trans; [exact H2|].
  eapply step_ok_trans; [exact H3 | exact H4].
Qed.

(** X11: whatever the catalog holds and the user types, the four models
    that are installed in any case stay at the head of the list in their
    order; what the loop adds after them are models of the catalog, by
    id and name; no pair of id and name is in the list twice; and the
    loop reads one line for each prompt it writes. *)
Theorem choice_keeps_defaults (model_list : Catalog) (console : Console) :
  (exists added,
      fst (choose download_everything typed model_list models_to_download console)
      = models_to_download ++ added
      /\ Forall (fun m => exists item, In item (items_of model_list) /\ m = entry_of item)
           added)
  /\ NoDup (fst (choose download_everything typed model_list models_to_download console))
  /\ (exists events,
        shown (snd (choose download_everything typed model_list models_to_download
                      console))
        = shown console ++ events
        /\ lines_read (snd (choose download_everything typed model_list
                              models_to_download console))
           = (lines_read console + prompts events)%nat).
Proof.
  destruct (choose_ok model_list models_to_download console) as [Ha Hn _ He].
  split; [exact Ha|]. split.
  - apply Hn. unfold models_to_download.
    repeat (constructor; [simpl; intuition discriminate|]). constructor.
  - destruct He as (events & H1 & H2 & _). eauto.
Qed.

End ChoiceFacts.

(** X12: with [--everything] the loop asks nothing and reads nothing,
    and every model of the catalog is in the list when it ends. *)
Theorem everything_chooses_all (typed : nat -> string) (model_list : Catalog)
    (console : Console) :
  Forall (fun item =>
            chosen item (fst (choose true typed model_list models_to_download console))
            = true)
    (items_of model_list)
  /\ lines_read (snd (choose true typed model_list models_to_download console))
     = lines_read console
  /\ (forall prompt,
        In (Prompted prompt)
          (shown (snd (choose true typed model_list models_to_download console))) ->
        In (Prompted prompt) (shown console)).
Proof.
  destruct (choose_ok true typed model_list models_to_download console) as [_ _ Ha He].
  split; [now apply Ha|].
  destruct He as (events & H1 & H2 & H3). specialize (H3 eq_refl). simpl in *.
  split; [lia|]. intros prompt Hin. rewrite H1 in Hin.
  apply in_app_or in Hin. destruct Hin as [Hin | Hin]; [exact Hin|]. exfalso.
  unfold prompts in H3. apply length_zero_iff_nil in H3.
  assert (Hf : In (Prompted prompt)
                 (filter (fun e => match e with Prompted _ => true | Printed _ => false end)
                    events)).
  { apply filter_In. split; [exact Hin | reflexivity]. }
  rewrite H3 in Hf. destruct Hf.
Qed.

(** *** Sizes *)

Local Open Scope Q_scope.

Lemma round_half_even_comp (x y : Q) : x == y -> round_half_even x = round_half_even y.
Proof.
  intros H. unfold round_half_even.
  rewrite (Qfloor_comp x y H).
  assert (Hc : Qcompare (x - inject_Z (Qfloor y)) (1 # 2)
               = Qcompare (y - inject_Z (Qfloor y)) (1 # 2)).
  { apply Qcompare_comp; [rewrite H|]; reflexivity. }
  now rewrite Hc.
Qed.

Lemma round_half_even_Z (n : Z) : round_half_even (inject_Z n) = n.
Proof.
  unfold round_half_even. rewrite Qfloor_Z.
  assert (Hc : Qcompare (inject_Z n - inject_Z n) (1 # 2) = Lt).
  { apply Qlt_alt. setoid_replace (inject_Z n - inject_Z n) with 0 by ring.
    reflexivity. }
  now rewrite Hc.
Qed.

(** X13: a size above 1 whose logarithm to the base 1024 has the integer
    part 0 is printed as the nearest whole number, a tie going to the
    even one, followed by " bytes"; so such a size that is a whole number
    of bytes is printed as it is. *)
Theorem sizeof_fmt_bytes (int_log_1024 : Q -> nat) (num : Q) :
  1 < num -> int_log_1024 num = 0%nat ->
  sizeof_fmt int_log_1024 num = Some (str_of_N (round_half_even num) ++ " bytes")%string
  /\ (forall n : Z, num == inject_Z n ->
                    sizeof_fmt int_log_1024 num = Some (str_of_N n ++ " bytes")%string).
Proof.
  intros H1 Hlog.
  assert (Hmain : sizeof_fmt int_log_1024 num
                  = Some (str_of_N (round_half_even num) ++ " bytes")%string).
  { unfold sizeof_fmt. rewrite (proj2 (Qgtb_true num 1) H1).
    rewrite Hlog. cbn [Nat.min Z.of_nat nth unit_list].
    change (inject_Z (1024 ^ 0)) with 1. unfold format_f.
    change (10 ^ Z.of_nat 0)%Z with 1%Z. rewrite Z.div_1_r.
    assert (Hs : Qgtb 0 (num / 1) = false).
    { apply Qgtb_false. apply Qle_shift_div_l; lra. }
    rewrite Hs.
    assert (Hr : Qabs (num / 1) * inject_Z 1 == num).
    { rewrite Qabs_pos by (apply Qle_shift_div_l; lra). change (inject_Z 1) with 1. field. }
    rewrite (round_half_even_comp _ _ Hr). reflexivity. }
  split; [exact Hmain|].
  intros n Hn. rewrite Hmain, (round_half_even_comp _ _ Hn), round_half_even_Z.
  reflexivity.
Qed.

Lemma sizeof_fmt_bytes_witness :
  sizeof_fmt exact_log_1024 512 = Some "512 bytes"%string
  /\ sizeof_fmt exact_log_1024 512
     = Some (str_of_N (round_half_even 512) ++ " bytes")%string.
Proof.
  split.
  - apply (proj2 (sizeof_fmt_bytes exact_log_1024 512 eq_refl eq_refl) 512%Z).
    reflexivity.
  - apply (proj1 (sizeof_fmt_bytes exact_log_1024 512 eq_refl eq_refl)).
Defined.

(** The size of a file, a whole number that is not negative, is always
    printed. *)
Lemma sizeof_fmt_of_size (int_log_1024 : Q -> nat) (n : Z) :
  (0 <= n)%Z -> exists s, sizeof_fmt int_log_1024 (inject_Z n) = Some s.
Proof.
  intros H. destruct (Z.eq_dec n 0) as [->|H0]; [now exists "0 bytes"%string|].
  destruct (Z.eq_dec n 1) as [->|H1]; [now exists "1 byte"%string|].
  unfold sizeof_fmt.
  assert (Hg : Qgtb (inject_Z n) 1 = true).
  { apply Qgtb_true. change 1 with (inject_Z 1). rewrite <- Zlt_Qlt. lia. }
  rewrite Hg. destruct (nth _ unit_list _) as [unit num_decimals]. eauto.
Qed.

Definition total_of (content_length : string -> Z) (models : list (string * string)) : Z :=
  fold_right Z.add 0%Z (map (fun item => content_length (fst item)) models).

Lemma report_total (int_log_1024 : Q -> nat) (content_length : string -> Z)
    (models : list (string * string)) :
  (forall id, (0 <= content_length id)%Z) ->
  forall total console,
    exists console',
      report int_log_1024 content_length models total console
      = Ok ((total + total_of content_length models)%Z, console')
      /\ List.length (shown console')
         = (List.length (shown console) + List.length models)%nat.
Proof.
  intros Hsize. induction models as [|item rest IH]; intros total console.
  - exists console. simpl. split; [now rewrite Z.add_0_r | lia].
  - cbn [report]. cbv zeta.
    destruct (sizeof_fmt_of_size int_log_1024 (content_length (fst item)) (Hsize _))
      as [s ->].
    cbn [rjust_size].
    destruct (IH (total + content_length (fst item))%Z
                (print ("   - " ++ ljust 55 (shown_name (snd item))
                        ++ ljust 20 (" (" ++ fst item ++ ")") ++ rjust 10 s) console))
      as (console' & -> & Hl).
    exists console'. split.
    + unfold total_of. simpl. f_equal. f_equal. lia.
    + rewrite Hl. simpl. rewrite length_app. simpl. lia.
Qed.

Lemma total_of_not_negative (content_length : string -> Z)
    (models : list (string * string)) :
  (forall id, (0 <= content_length id)%Z) -> (0 <= total_of content_length models)%Z.
Proof.
  intros Hsize. unfold total_of. induction models as [|item rest IH]; simpl; [lia|].
  specialize (Hsize (fst item)). lia.
Qed.

(** X14: when no archive has a negative length, the report of the sizes
    does not fail: it writes its heading, one line for each chosen model
    and the line of the total, and the total is the sum of the lengths. *)
Theorem report_sizes_total (int_log_1024 : Q -> nat) (content_length : string -> Z)
    (models : list (string * string)) (console : Console) :
  (forall id, (0 <= content_length id)%Z) ->
  exists console',
    report_sizes int_log_1024 content_length models console
    = Ok (total_of content_length models, console')
    /\ List.length (shown console')
       = (List.length (shown console) + List.length models + 2)%nat.
Proof.
  intros Hsize. unfold report_sizes.
  destruct (report_total int_log_1024 content_length models Hsize 0%Z
              (print "You have selected to install the following models: " console))
    as (console1 & -> & Hl).
  rewrite Z.add_0_l.
  pose proof (total_of_not_negative content_length models Hsize) as Ht.
  destruct (sizeof_fmt_of_size int_log_1024 _ Ht) as [s ->].
  eexists. split; [reflexivity|].
  simpl. rewrite length_app, Hl. simpl. rewrite length_app. simpl. lia.
Qed.

Lemma report_sizes_total_witness :
  exists console',
    report_sizes exact_log_1024 (fun _ => 1500%Z) models_to_download (mkConsole [] 0)
    = Ok (total_of (fun _ => 1500%Z) models_to_download, console')
    /\ List.length (shown console')
       = (List.length (shown (mkConsole [] 0)) + List.length models_to_download + 2)%nat.
Proof.
  apply (report_sizes_total exact_log_1024 (fun _ => 1500%Z) models_to_download
           (mkConsole [] 0)).
  intros id. lia.
Defined.

End SetupScriptFacts.

(** ** The comparison of two results *)

Module SharedAssertFacts.
Import Py Shared SharedAssert PyFacts SetupFacts.
Local Open Scope string_scope.
Local Open Scope Q_scope.

(** Both absent, or two numbers that differ by 0.0005 at most. *)
Definition close (live expected : option Q) : Prop :=
  match live, expected with
  | None, None => True
  | Some a, Some b => Qabs (a - b) <= 1 # 2000
  | _, _ => False
  end.

(** The two results agree: their five physical values are close and
    their five provenance strings are equal. *)
Definition agree (live expected : VelocityProperties) : Prop :=
  close (density live) (density expected)
  /\ density_source live = density_source expected
  /\ close (qp live) (qp expected)
  /\ qp_source live = qp_source expected
  /\ close (qs live) (qs expected)
  /\ qs_source live = qs_source expected
  /\ close (vp live) (vp expected)
  /\ vp_source live = vp_source expected
  /\ close (vs live) (vs expected)
  /\ vs_source live = vs_source expected.

(** The body of the loop on the two values of an attribute. *)
Definition compare_values (x y : option value) : PyResult unit :=
  match x with
  | None => assertIsNone y
  | Some v =>
      match float v with
      | Ok _ => assertAlmostEqual v y 3
      | Raise ValueError => assertEqual (Some v) y
      | Raise e => Raise e
      end
  end.

Lemma py_float_ValueError (s : string) (e : exn) : py_float s = Raise e -> e = ValueError.
Proof.
  unfold py_float. destruct (signed _) as [sg body].
  destruct (cut_at _ _ body) as [[m x]|]; destruct (mantissa _) as [[n k]|];
    try destruct (exponent_part _); intros H; now inversion H.
Qed.

Lemma three_places (d : Q) :
  0 <= d ->
  (Setup.round_half_even (d * inject_Z (10 ^ Z.of_nat 3)) = 0%Z <-> d <= 1 # 2000).
Proof.
  intros Hd. change (inject_Z (10 ^ Z.of_nat 3)) with 1000.
  rewrite round_half_even_zero by nra. split; intros H; nra.
Qed.

Lemma compare_numbers (a b : option Q) :
  compare_values (option_map Number a) (option_map Number b) = Ok tt <-> close a b.
Proof.
  destruct a as [a|], b as [b|];
    cbn [compare_values option_map float close assertIsNone];
    try (split; [discriminate | tauto]); [|tauto].
  unfold assertAlmostEqual. cbn [value_eqb].
  pose proof (Qabs_nonneg (a - b)) as Hn.
  destruct (Qeq_bool a b) eqn:E.
  - apply Qeq_bool_iff in E. split; [|reflexivity]. intros _.
    assert (H : Qabs (a - b) == 0).
    { assert (H0 : a - b == 0) by lra. rewrite H0. reflexivity. }
    rewrite H. discriminate.
  - destruct (Z.eqb _ 0) eqn:Ez.
    + apply Z.eqb_eq in Ez. apply three_places in Ez; [|exact Hn]. tauto.
    + apply Z.eqb_neq in Ez. split; [discriminate|]. intros H.
      apply three_places in H; [contradiction | exact Hn].
Qed.

Lemma compare_texts (a b : option string) :
  compare_values (option_map Text a) (option_map Text b) = Ok tt <-> a = b.
Proof.
  destruct a as [a|], b as [b|]; simpl;
    try (split; [discriminate | intros H; discriminate H || reflexivity]);
    try tauto.
  - assert (Heq : String.eqb a b = true <-> Some a = Some b).
    { rewrite String.eqb_eq. split; [now intros -> | now intros [= ->]]. }
    destruct (py_float a) as [x|e] eqn:Ef.
    + unfold assertAlmostEqual. simpl value_eqb.
      destruct (String.eqb a b); [tauto|].
      split; [discriminate|]. intros H. apply Heq in H. discriminate H.
    + apply py_float_ValueError in Ef. subst e. unfold assertEqual. simpl value_eqb.
      destruct (String.eqb a b); [tauto|].
      split; [discriminate|]. intros H. apply Heq in H. discriminate H.
  - destruct (py_float a) as [x|e] eqn:Ef.
    + unfold assertAlmostEqual. simpl. split; discriminate.
    + apply py_float_ValueError in Ef. subst e. unfold assertEqual. simpl.
      split; discriminate.
Qed.

Lemma then_Ok (m k : PyResult unit) :
  match m with Ok _ => k | Raise e => Raise e end = Ok tt <-> m = Ok tt /\ k = Ok tt.
Proof.
  destruct m as [[]|e]; [tauto|]. split; [discriminate | intros [H _]; discriminate H].
Qed.

Lemma compare_attributes_dir (live expected : VelocityProperties) :
  compare_attributes live expected dir = Ok tt <-> agree live expected.
Proof.
  unfold dir, agree. cbn [compare_attributes].
  change (compare_attribute live expected "count") with (@Ok unit tt).
  change (compare_attribute live expected "index") with (@Ok unit tt).
  change (compare_attribute live expected "density")
    with (compare_values (option_map Number (density live))
            (option_map Number (density expected))).
  change (compare_attribute live expected "density_source")
    with (compare_values (option_map Text (density_source live))
            (option_map Text (density_source expected))).
  change (compare_attribute live expected "qp")
    with (compare_values (option_map Number (qp live)) (option_map Number (qp expected))).
  change (compare_attribute live expected "qp_source")
    with (compare_values (option_map Text (qp_source live))
            (option_map Text (qp_source expected))).
  change (compare_attribute live expected "qs")
    with (compare_values (option_map Number (qs live)) (option_map Number (qs expected))).
  change (compare_attribute live expected "qs_source")
    with (compare_values (option_map Text (qs_source live))
            (option_map Text (qs_source expected))).
  change (compare_attribute live expected "vp")
    with (compare_values (option_map Number (vp live)) (option_map Number (vp expected))).
  change (compare_attribute live expected "vp_source")
    with (compare_values (option_map Text (vp_source live))
            (option_map Text (vp_source expected))).
  change (compare_attribute live expected "vs")
    with (compare_values (option_map Number (vs live)) (option_map Number (vs expected))).
  change (compare_attribute live expected "vs_source")
    with (compare_values (option_map Text (vs_source live))
            (option_map Text (vs_source expected))).
  cbv iota. rewrite !then_Ok, !compare_numbers, !compare_texts. tauto.
Qed.

(** X15: [assert_velocity_properties] passes exactly when the query
    unit, its properties and the expected properties are all there, each
    of vp, vs, density, qp and qs is absent on both sides or a number on
    both sides with a difference of 0.0005 at most, and each of the five
    provenance strings is the same on both sides. *)
Theorem assert_velocity_properties_passes (data : option SeismicData)
    (velocity_prop : option VelocityProperties) :
  assert_velocity_properties data velocity_prop = Ok tt
  <-> exists d live expected,
      data = Some d /\ velocity_properties d = Some live
      /\ velocity_prop = Some expected /\ agree live expected.
Proof.
  unfold assert_velocity_properties.
  destruct data as [d|]; cbn [assertIsNotNone].
  2:{ split; [discriminate | intros (? & ? & ? & H & _); discriminate H]. }
  destruct (velocity_properties d) as [live|] eqn:El; cbn [assertIsNotNone].
  2:{ split; [discriminate|]. intros (d' & ? & ? & H & H' & _).
      inversion H; subst. rewrite El in H'. discriminate H'. }
  destruct velocity_prop as [expected|]; cbn [assertIsNotNone].
  2:{ split; [discriminate | intros (? & ? & ? & _ & _ & H & _); discriminate H]. }
  rewrite compare_attributes_dir. split.
  - intros H. exists d, live, expected.
    split; [reflexivity|]. split; [exact El|]. split; [reflexivity | exact H].
  - intros (d' & live' & expected' & H1 & H2 & H3 & H). inversion H1; subst d'.
    rewrite El in H2. inversion H2; inversion H3; subst. exact H.
Qed.

End SharedAssertFacts.

(** ** The grid of the acceptance test *)

Module AcceptanceFacts.
Import Py Shared SharedTest PyFacts.
Local Open Scope list_scope.

Lemma nth_error_seq_iff (start n q a : nat) :
  nth_error (seq start n) q = Some a <-> (q < n)%nat /\ a = (start + q)%nat.
Proof.
  revert start q. induction n as [|n IH]; intros start q; simpl.
  - destruct q; simpl; split; (discriminate || lia).
  - destruct q as [|q]; simpl.
    + split; [intros [= <-]; lia | intros [_ ->]; f_equal; lia].
    + rewrite IH. split; intros [H1 H2]; (split; [lia | lia]).
Qed.

Lemma length_blocks {A B : Type} (f : A -> list B) (k : nat) (l : list A) :
  (forall a, List.length (f a) = k) -> List.length (flat_map f l) = (List.length l * k)%nat.
Proof.
  intros Hk. induction l as [|a l IH]; simpl; [reflexivity|].
  now rewrite length_app, Hk, IH.
Qed.

(** In a list made of blocks of one length, the element numbered [i] is
    the element numbered [i mod k] of the block numbered [i / k]. *)
Lemma nth_error_blocks {A B : Type} (f : A -> list B) (k : nat) (l : list A) :
  (forall a, List.length (f a) = k) ->
  forall i b,
    nth_error (flat_map f l) i = Some b
    <-> exists q r a,
        i = (q * k + r)%nat /\ (r < k)%nat
        /\ nth_error l q = Some a /\ nth_error (f a) r = Some b.
Proof.
  intros Hk. induction l as [|a0 l IH]; intros i b; simpl.
  - split.
    + destruct i; discriminate.
    + intros (q & r & a & _ & _ & H & _). destruct q; discriminate H.
  - destruct (Nat.lt_ge_cases i k) as [Hlt | Hge].
    + rewrite nth_error_app1 by (now rewrite Hk). split.
      * intros H. exists 0%nat, i, a0. repeat split; [exact Hlt | exact H].
      * intros (q & r & a & Hi & Hr & Hq & Hb). destruct q as [|q].
        -- simpl in Hi, Hq. inversion Hq; subst. exact Hb.
        -- exfalso. simpl in Hi. lia.
    + rewrite nth_error_app2 by (now rewrite Hk). rewrite Hk, IH. split.
      * intros (q & r & a & Hi & Hr & Hq & Hb). exists (S q), r, a.
        repeat split; [simpl; lia | exact Hr | exact Hq | exact Hb].
      * intros (q & r & a & Hi & Hr & Hq & Hb). destruct q as [|q].
        -- exfalso. simpl in Hi. lia.
        -- exists q, r, a. repeat split; [simpl in Hi; lia | exact Hr | exact Hq | exact Hb].
Qed.

(** The number of a point of the grid in the order of the loops. *)
Definition number_of (ny nz x y z : nat) : nat := ((x * ny + y) * nz + z)%nat.

Lemma nth_error_grid (nx ny nz i x y z : nat) :
  nth_error (grid nx ny nz) i = Some (x, y, z)
  <-> (x < nx)%nat /\ (y < ny)%nat /\ (z < nz)%nat /\ i = number_of ny nz x y z.
Proof.
  unfold grid, number_of.
  assert (Hin : forall x' y' : nat,
            List.length (map (fun z' => (x', y', z')) (seq 0 nz)) = nz).
  { intros x' y'. now rewrite length_map, length_seq. }
  assert (Hout : forall x' : nat,
            List.length (flat_map (fun y' => map (fun z' => (x', y', z')) (seq 0 nz))
                           (seq 0 ny)) = (ny * nz)%nat).
  { intros x'. rewrite (length_blocks _ nz) by (intros; apply Hin).
    now rewrite length_seq. }
  rewrite (nth_error_blocks _ (ny * nz) (seq 0 nx) Hout). split.
  - intros (q & r & x' & Hi & Hr & Hq & Hb).
    apply nth_error_seq_iff in Hq. destruct Hq as [Hq ->]. simpl in Hb.
    apply (nth_error_blocks _ nz (seq 0 ny) (Hin q)) in Hb.
    destruct Hb as (q2 & r2 & y' & Hi2 & Hr2 & Hq2 & Hb2).
    apply nth_error_seq_iff in Hq2. destruct Hq2 as [Hq2 ->]. simpl in Hb2.
    rewrite nth_error_map in Hb2.
    destruct (nth_error (seq 0 nz) r2) as [z'|] eqn:Ez; [|discriminate].
    apply nth_error_seq_iff in Ez. destruct Ez as [Ez ->]. simpl in Hb2.
    inversion Hb2; subst. repeat split; try assumption. nia.
  - intros (Hx & Hy & Hz & ->).
    exists x, (y * nz + z)%nat, x. repeat split.
    + nia.
    + nia.
    + apply nth_error_seq_iff. split; [exact Hx | reflexivity].
    + apply (nth_error_blocks _ nz (seq 0 ny) (Hin x)).
      exists y, z, y. repeat split; [exact Hz | |].
      * apply nth_error_seq_iff. split; [exact Hy | reflexivity].
      * rewrite nth_error_map.
        assert (E : nth_error (seq 0 nz) z = Some z)
          by (apply nth_error_seq_iff; split; [exact Hz | reflexivity]).
        now rewrite E.
Qed.

Lemma check_points_nth (arr : Reference) (sd_array : nat -> option VelocityProperties)
    (points : list (nat * nat * nat)) :
  forall counter,
    check_points arr sd_array counter points = Ok tt
    <-> forall i x y z,
        nth_error points i = Some (x, y, z) ->
        check_point arr x y z (sd_array (counter + i)%nat) = Ok tt.
Proof.
  induction points as [|[[x0 y0] z0] rest IH]; intros counter; simpl.
  - split; [|reflexivity]. intros _ i x y z H. destruct i; discriminate H.
  - destruct (check_point arr x0 y0 z0 (sd_array counter)) as [[]|e] eqn:E; simpl.
    + rewrite IH. split.
      * intros H i x y z Hi. destruct i as [|i]; simpl in Hi.
        -- inversion Hi; subst. now rewrite Nat.add_0_r.
        -- rewrite Nat.add_succ_r. now apply H.
      * intros H i x y z Hi. specialize (H (S i) x y z Hi).
        now rewrite Nat.add_succ_r in H.
    + split; [discriminate|]. intros H. specialize (H 0%nat x0 y0 z0 eq_refl).
      rewrite Nat.add_0_r, E in H. discriminate H.
Qed.

(** X16: the second loop of the acceptance test passes exactly when
    every point of the grid passes against the query unit with its
    number, and the number of the point [(x, y, z)] is
    [(x * len(arr[0]) + y) * len(arr[0][0]) + z]: the query units are
    compared in the order in which they were laid out, [x] outermost and
    [z] innermost. *)
Theorem check_points_grid (arr : Reference)
    (sd_array : nat -> option VelocityProperties) (nx ny nz : nat) :
  check_points arr sd_array 0 (grid nx ny nz) = Ok tt
  <-> forall x y z,
      (x < nx)%nat -> (y < ny)%nat -> (z < nz)%nat ->
      check_point arr x y z (sd_array (number_of ny nz x y z)) = Ok tt.
Proof.
  rewrite check_points_nth. split.
  - intros H x y z Hx Hy Hz.
    apply (H (number_of ny nz x y z) x y z). apply nth_error_grid. auto.
  - intros H i x y z Hi. apply nth_error_grid in Hi.
    destruct Hi as (Hx & Hy & Hz & ->). now apply H.
Qed.

Section Run.

Variable UCVM_MODELS_DIRECTORY : string.
Variable path_exists : string -> bool.
Variable read_model : string -> PyResult (Q * Q * string).
Variable np_load : string -> Reference.
Variable UCVM_query :
  list Point -> string -> list string -> PyResult (nat -> option VelocityProperties).

(** The two files of the test of a model. *)
Definition npy_file (model_id : string) : string :=
  path_join (path_join UCVM_MODELS_DIRECTORY model_id) ("test_" ++ model_id ++ ".npy").

Definition xml_file (model_id : string) : string :=
  path_join (path_join UCVM_MODELS_DIRECTORY model_id) "ucvm_model.xml".

(** The original points of the query units, in the order of the grid. *)
Definition original_points (e n : Q) (arr : Reference) : list Point :=
  map (fun '(x, y, z) =>
         mkPoint (e + spacing * inject_Z (Z.of_nat x))
                 (n + spacing * inject_Z (Z.of_nat y))
                 (0 + depth * inject_Z (Z.of_nat z)))
    (grid (len_x arr) (len_y arr) (len_z arr)).

(** X17: the acceptance test returns [False] exactly when the reference
    file or the file of the model is missing, and then without reading
    or querying anything; it returns [True] exactly when both files are
    there, the reference has at least one row and one column, the query
    of the grid succeeds and every point of the grid passes. *)
Theorem run_acceptance_test_outcome (model_id : string) :
  (run_acceptance_test UCVM_MODELS_DIRECTORY path_exists read_model np_load UCVM_query
     model_id = Ok false
   <-> path_exists (npy_file model_id) = false \/ path_exists (xml_file model_id) = false)
  /\ (run_acceptance_test UCVM_MODELS_DIRECTORY path_exists read_model np_load UCVM_query
        model_id = Ok true
      <-> path_exists (npy_file model_id) = true
          /\ path_exists (xml_file model_id) = true
          /\ exists e n model_type sd_array,
              read_model (xml_file model_id) = Ok (e, n, model_type)
              /\ len_x (np_load (npy_file model_id)) <> 0%nat
              /\ len_y (np_load (npy_file model_id)) <> 0%nat
              /\ UCVM_query (original_points e n (np_load (npy_file model_id)))
                   model_id [model_type] = Ok sd_array
              /\ forall x y z,
                  (x < len_x (np_load (npy_file model_id)))%nat ->
                  (y < len_y (np_load (npy_file model_id)))%nat ->
                  (z < len_z (np_load (npy_file model_id)))%nat ->
                  check_point (np_load (npy_file model_id)) x y z
                    (sd_array (number_of (len_y (np_load (npy_file model_id)))
                                 (len_z (np_load (npy_file model_id))) x y z))
                  = Ok tt).
Proof.
  unfold run_acceptance_test. fold (npy_file model_id). fold (xml_file model_id).
  set (arr := np_load (npy_file model_id)).
  destruct (path_exists (npy_file model_id)) eqn:E1; simpl.
  2:{ split; [split; auto | split; [discriminate | intros [H _]; discriminate H]]. }
  destruct (path_exists (xml_file model_id)) eqn:E2; simpl.
  2:{ split; [split; auto | split; [discriminate | intros (_ & H & _); discriminate H]]. }
  destruct (read_model (xml_file model_id)) as [[[e n] model_type]|err] eqn:Er; simpl.
  2:{ split; [split; [discriminate | intros [H|H]; discriminate H]|].
      split; [discriminate|]. intros (_ & _ & ? & ? & ? & ? & H & _). discriminate H. }
  destruct (len_x arr) as [|nx'] eqn:Ex; simpl.
  { split; [split; [discriminate | intros [H|H]; discriminate H]|].
    split; [discriminate|]. intros (_ & _ & ? & ? & ? & ? & _ & H & _). exfalso. now apply H. }
  destruct (len_y arr) as [|ny'] eqn:Ey; simpl.
  { split; [split; [discriminate | intros [H|H]; discriminate H]|].
    split; [discriminate|]. intros (_ & _ & ? & ? & ? & ? & _ & _ & H & _). exfalso. now apply H. }
  fold (grid (S nx') (S ny') (len_z arr)).
  assert (Ep : forall e' n', original_points e' n' arr
                             = map (fun '(x, y, z) =>
                                      mkPoint (e' + spacing * inject_Z (Z.of_nat x))
                                        (n' + spacing * inject_Z (Z.of_nat y))
                                        (0 + depth * inject_Z (Z.of_nat z)))
                                 (grid (S nx') (S ny') (len_z arr))).
  { intros e' n'. unfold original_points. now rewrite Ex, Ey. }
  rewrite <- (Ep e n).
  destruct (UCVM_query (original_points e n arr) model_id [model_type])
    as [sd_array|err] eqn:Eq; simpl.
  2:{ split; [split; [discriminate | intros [H|H]; discriminate H]|].
      split; [discriminate|]. intros (_ & _ & e' & n' & t' & sd' & H & _ & _ & H' & _).
      inversion H; subst. rewrite Eq in H'. discriminate H'. }
  pose proof (check_points_grid arr sd_array (S nx') (S ny') (len_z arr)) as Hg.
  destruct (check_points arr sd_array 0 (grid (S nx') (S ny') (len_z arr)))
    as [[]|err] eqn:Ec; simpl.
  - split; [split; [discriminate | intros [H|H]; discriminate H]|].
    split; [|reflexivity]. intros _. repeat split.
    exists e, n, model_type, sd_array. repeat split; try discriminate; try assumption.
    now apply Hg.
  - split; [split; [discriminate | intros [H|H]; discriminate H]|].
    split; [discriminate|].
    intros (_ & _ & e' & n' & t' & sd' & H & _ & _ & H' & Hall).
    inversion H; subst. rewrite Eq in H'. inversion H'; subst.
    apply Hg in Hall. discriminate Hall.
Qed.

End Run.

End AcceptanceFacts.

(** ** The query as the composition of its parts *)

Module QueryComposition.
Import Py Shared OneDimensional PyFacts LookupFacts QueryFacts.
Local Open Scope string_scope.
Local Open Scope list_scope.

Lemma query_points_each (data : list SeismicData) (layers : list Layer)
    (interpolate : bool) (name : string) :
  query_points data layers interpolate name = query_each data layers interpolate name.
Proof.
  destruct (last_item layers) as [s|e] eqn:Hlast.
  - rewrite <- (query_points_sentinels data layers s interpolate name Hlast 0).
    simpl. now rewrite app_nil_r.
  - apply last_item_nil in Hlast. destruct Hlast as [-> _].
    destruct data as [|d rest]; reflexivity.
Qed.

Section Composition.

Variable is_number : string -> bool.
Variable calculate_scaled_density : Q -> Q.
Variable calculate_scaled_vs : Q -> Q -> Q.
Variable model_location : string.
Variable path_exists : string -> bool.
Variable read_profile : string -> option Profile.

(** The interpolation of a query: the one its parameters force, or else
    the one the profile declares. *)
Definition interpolation_of (params : option string) (model_1d : Profile) : string :=
  match fst (fst (select_profile model_location params)) with
  | Some forced => forced
  | None => lower (strip (p_interpolation model_1d))
  end.

(** X18: when the profile file is found, read and parsed, the query
    gives every point what the depth lookup returns for its converted
    depth on the layers as parsed, under the name of the profile in
    lower case, and interpolates exactly when the interpolation that the
    parameters force, or else the one the profile declares, is
    "linear"; the first point whose lookup raises ends the query and
    leaves the later points as they were. *)
Theorem query_composes (data : list SeismicData) (params : option string)
    (xml_file : string) (model_1d : Profile) (layers : list Layer) :
  located model_location path_exists params = Some xml_file ->
  read_profile xml_file = Some model_1d ->
  parse_layers is_number calculate_scaled_density calculate_scaled_vs model_1d
    (lower (strip (p_format model_1d))) = (Ok tt, layers) ->
  _query is_number calculate_scaled_density calculate_scaled_vs model_location
    path_exists read_profile data params
  = query_each data layers
      (String.eqb (interpolation_of params model_1d) "linear")
      (lower (strip (p_name model_1d))).
Proof.
  intros Hl Hr Hp. rewrite query_unfold, Hl. unfold query_file. rewrite Hr.
  cbv zeta. rewrite Hp. rewrite query_points_each. unfold interpolation_of.
  destruct (fst (fst (select_profile model_location params))); reflexivity.
Qed.

End Composition.

Lemma query_composes_witness :
  _query reads_as_float (fun _ => 0%Q) (fun _ _ => 0%Q) installed_at
    only_packaged read_bbp_profile [at_surface] None
  = query_each [at_surface]
      (snd (parse_layers reads_as_float (fun _ => 0%Q) (fun _ _ => 0%Q)
              bbp_profile "bbp"))
      (String.eqb (interpolation_of installed_at None bbp_profile) "linear")
      (lower (strip (p_name bbp_profile))).
Proof.
  apply (query_composes reads_as_float (fun _ => 0%Q) (fun _ _ => 0%Q) installed_at
           only_packaged read_bbp_profile [at_surface] None
           "/opt/ucvm/models/1d/data/SCEC 1D.mdl" bbp_profile); reflexivity.
Defined.

End QueryComposition.
